(** * rrmngmnt.nmcli: command building, execution and output parsing

    A shallow embedding of [rrmngmnt/nmcli.py] (class [NMCLI]) and the
    properties its specification states about it.

    Python strings are modelled as [string] (sequences of code points below
    256), the values that reach the command builder as [pyval], dicts as
    association lists in insertion order (the order [items()] iterates in),
    and the effects of the facade (the executor, the error log, raised
    exceptions) as a state-and-error monad.  The library functions the module
    calls ([str.split], [str.splitlines], [shlex.split], [str.format]) follow
    Python 3. *)

From Stdlib Require Import ZArith List Bool Ascii String Lia.
From Stdlib Require Import Numbers.DecimalString.
Import ListNotations.
Set Warnings "-notation-for-abbreviation".
Open Scope list_scope.
Open Scope string_scope.

(** ** Python values *)

Module Py.

(** The values the callers pass for optional parameters: [None], a [bool],
    an [int] or a [str]. *)
Inductive pyval : Type :=
| PyNone
| PyBool (b : bool)
| PyInt (z : Z)
| PyStr (s : string).

(** [str(v)], which is what ["{x}".format(x=v)] inserts. *)
Definition str (v : pyval) : string :=
  match v with
  | PyNone => "None"
  | PyBool true => "True"
  | PyBool false => "False"
  | PyInt z => NilZero.string_of_int (Z.to_int z)
  | PyStr s => s
  end.

(** The truth test of [if v:]. *)
Definition truthy (v : pyval) : bool :=
  match v with
  | PyNone => false
  | PyBool b => b
  | PyInt z => negb (Z.eqb z 0)
  | PyStr s => negb (String.eqb s "")
  end.

(** [v is not None]. *)
Definition is_not_none (v : pyval) : bool :=
  match v with
  | PyNone => false
  | _ => true
  end.

(** [v is True]: identity with the singleton [True], so only the boolean. *)
Definition is_true (v : pyval) : bool :=
  match v with
  | PyBool true => true
  | _ => false
  end.

(** A dict, in insertion order. *)
Definition dict (V : Type) : Type := list (string * V).

(** [d[k] = v]: an existing key keeps its place, a new one goes last. *)
Fixpoint dict_set {V : Type} (d : dict V) (k : string) (v : V) : dict V :=
  match d with
  | [] => [(k, v)]
  | (k', v') :: r =>
      if String.eqb k' k then (k', v) :: r else (k', v') :: dict_set r k v
  end.

(** [s.split(sep)] for a separator of one character. *)
Fixpoint split (sep : ascii) (s : string) : list string :=
  match s with
  | EmptyString => [""]
  | String c r =>
      if Ascii.eqb c sep then "" :: split sep r
      else match split sep r with
           | h :: t => String c h :: t
           | [] => [String c ""]
           end
  end.

(** The line boundaries of [str.splitlines] among the code points below 256:
    LF, CR, VT, FF, FS, GS, RS and NEL. *)
Definition is_linebreak (c : ascii) : bool :=
  match N_of_ascii c with
  | 10 | 13 | 11 | 12 | 28 | 29 | 30 | 133 => true
  | _ => false
  end%N.

(** [s.splitlines()]: [cur] is the line read so far; a boundary closes it,
    CR LF counting as one boundary, and the text after the last boundary is a
    line only when it is not empty. *)
Fixpoint splitlines_go (s : string) (cur : string) : list string :=
  match s with
  | EmptyString =>
      match cur with
      | EmptyString => []
      | _ => [cur]
      end
  | String c r =>
      if is_linebreak c then
        match N_of_ascii c, r with
        | 13%N, String c' r' =>
            if Ascii.eqb c' "010"%char
            then cur :: splitlines_go r' ""
            else cur :: splitlines_go r ""
        | _, _ => cur :: splitlines_go r ""
        end
      else splitlines_go r (cur ++ String c "")
  end.

Definition splitlines (s : string) : list string := splitlines_go s "".

End Py.

(** ** Tokenising a command: [shlex.split] *)

Module Shlex.

(** [shlex.split(s)] runs the lexer of the [shlex] module in POSIX mode with
    [whitespace_split] set and no comment characters.  [read] follows
    [shlex.read_token] character by character; the lexer states are the
    module's [' '], ['a'], a quote character, and the escape character
    (together with [escapedstate], the state to come back to). *)
Inductive lex_state : Type :=
| InSpace
| InWord
| InQuote (q : ascii)
| InEscape (escapedstate : option ascii).

Definition is_whitespace (c : ascii) : bool :=
  match N_of_ascii c with
  | 32 | 9 | 13 | 10 => true
  | _ => false
  end%N.

Definition is_escape (c : ascii) : bool := Ascii.eqb c "092"%char.

Definition is_quote (c : ascii) : bool :=
  Ascii.eqb c "039"%char || Ascii.eqb c "034"%char.

(** [escapedquotes]: the quotes inside which a backslash escapes. *)
Definition is_escapedquote (c : ascii) : bool := Ascii.eqb c "034"%char.

Definition nonempty (s : string) : bool := negb (String.eqb s "").

Definition emit {E : Type} (t : string) (r : E + list string)
  : E + list string :=
  match r with
  | inl e => inl e
  | inr l => inr (t :: l)
  end.

(** The tokens of [s], or the message of the [ValueError] raised. *)
Fixpoint read (s : string) (st : lex_state) (token : string) (quoted : bool)
  : string + list string :=
  match s with
  | EmptyString =>
      match st with
      | InSpace => inr []
      | InWord => if nonempty token || quoted then inr [token] else inr []
      | InQuote _ => inl "No closing quotation"
      | InEscape _ => inl "No escaped character"
      end
  | String c r =>
      match st with
      | InSpace =>
          if is_whitespace c then
            if nonempty token || quoted
            then emit token (read r InSpace "" false)
            else read r InSpace token quoted
          else if is_escape c then read r (InEscape None) token quoted
          else if is_quote c then read r (InQuote c) token quoted
          else read r InWord (String c "") quoted
      | InQuote q =>
          if Ascii.eqb c q then read r InWord token true
          else if is_escape c && is_escapedquote q
               then read r (InEscape (Some q)) token true
               else read r (InQuote q) (token ++ String c "") true
      | InEscape escapedstate =>
          match escapedstate with
          | Some q =>
              let token :=
                if negb (is_escape c) && negb (Ascii.eqb c q)
                then token ++ String "092" "" else token in
              read r (InQuote q) (token ++ String c "") quoted
          | None => read r InWord (token ++ String c "") quoted
          end
      | InWord =>
          if is_whitespace c then
            if nonempty token || quoted
            then emit token (read r InSpace "" false)
            else read r InSpace token quoted
          else if is_quote c then read r (InQuote c) token quoted
          else if is_escape c then read r (InEscape None) token quoted
          else read r InWord (token ++ String c "") quoted
      end
  end.

Definition split (s : string) : string + list string :=
  read s InSpace "" false.

(** A plain word: not empty, and free of the characters the lexer treats
    specially (whitespace, quotes, backslash). *)
Fixpoint plain_chars (s : string) : bool :=
  match s with
  | EmptyString => true
  | String c r =>
      negb (is_whitespace c || is_quote c || is_escape c) && plain_chars r
  end.

Definition plain (s : string) : bool := nonempty s && plain_chars s.

End Shlex.

(** ** The constants of the module *)

Definition nl : string := String "010" "".

(** [ERROR_MSG_FORMAT.format(command=..., rc=..., out=..., err=...)] *)
Definition ERROR_MSG_FORMAT (command : string) (rc : Z) (out err : string)
  : string :=
  "command -> " ++ command ++ nl ++ "RC -> " ++ Py.str (Py.PyInt rc) ++ nl
  ++ "OUT -> " ++ out ++ nl ++ "ERROR -> " ++ err.

Module Objects.
Definition CONNECTION := "connection".
Definition DEVICE := "device".
End Objects.

Module Operations.
Definition ADD := "add".
Definition MODIFY := "modify".
Definition DELETE := "delete".
Definition SHOW := "show".
End Operations.

Module NmGeneralSettings.
Definition _prefix (setting : string) : string := "GENERAL." ++ setting.
Definition DEVICE := _prefix "DEVICE".
Definition TYPE := _prefix "TYPE".
Definition MAC := _prefix "HWADDR".
Definition MTU := _prefix "MTU".
End NmGeneralSettings.

Module ConnectionDetails.
Definition NAME := "name".
Definition TYPE := "type".
Definition UUID := "uuid".
Definition DEVICE := "device".
End ConnectionDetails.

Module DeviceDetails.
Definition NAME := "name".
Definition TYPE := "type".
Definition MAC := "mac".
Definition MTU := "mtu".
End DeviceDetails.

Module Types.
Definition ETHERNET := "ethernet".
Definition BOND := "bond".
Definition VLAN := "vlan".
Definition DUMMY := "dummy".
End Types.

Module EthernetOptions.
Definition MAC := "mac".
Definition MTU := "mtu".
End EthernetOptions.

Module BondOptions.
Definition MODE := "mode".
Definition MIIMON := "miimon".
End BondOptions.

Module SlaveOptions.
Definition MASTER := "master".
End SlaveOptions.

Module VlanOptions.
Definition DEV := "dev".
Definition ID := "id".
Definition MTU := "mtu".
End VlanOptions.

(** ** The command builder *)

Module Builder.
Import Py.

(** [_ip_options_builder]; [command += x] is [command ++ x]. *)
Definition _ip_options_builder
  (ipv4_addr ipv4_gw ipv4_method ipv6_addr ipv6_gw ipv6_method : pyval)
  : string :=
  let command := "" in
  let command :=
    if truthy ipv4_method
    then command ++ " ipv4.method " ++ str ipv4_method else command in
  let command :=
    if truthy ipv6_method
    then command ++ " ipv6.method " ++ str ipv6_method else command in
  let command :=
    if truthy ipv4_addr
    then command ++ " ipv4.addresses " ++ str ipv4_addr else command in
  let command :=
    if truthy ipv4_gw
    then command ++ " ipv4.gateway " ++ str ipv4_gw else command in
  let command :=
    if truthy ipv6_addr
    then command ++ " ipv6.addresses " ++ str ipv6_addr else command in
  let command :=
    if truthy ipv6_gw
    then command ++ " ipv6.gateway " ++ str ipv6_gw else command in
  command.

(** The inner function of [_common_options_builder]. *)
Definition _get_str_value (value : pyval) : string :=
  if is_true value then "yes" else "no".

Definition _common_options_builder
  (con_type : pyval) (con_name : string) (ifname auto_connect save : pyval)
  : string :=
  let common_options :=
    "type " ++ str con_type ++ " con-name " ++ con_name
    ++ " ifname " ++ str ifname in
  let common_options :=
    if is_not_none auto_connect
    then common_options ++ " autoconnect " ++ _get_str_value auto_connect
    else common_options in
  let common_options :=
    if is_not_none save
    then common_options ++ " save " ++ _get_str_value save
    else common_options in
  common_options.

(** The loop over [type_options.items()]. *)
Definition add_type_options (command : string) (type_options : dict pyval)
  : string :=
  fold_left
    (fun command kv => command ++ " " ++ fst kv ++ " " ++ str (snd kv))
    type_options command.

Definition _nmcli_cmd_builder
  (object_type operation name : string)
  (con_type ifname auto_connect save : pyval)
  (ipv4_method ipv4_addr ipv4_gw ipv6_method ipv6_addr ipv6_gw : pyval)
  (type_options : option (dict pyval)) : string :=
  let command := "nmcli " ++ object_type ++ " " ++ operation in
  let command :=
    if String.eqb operation Operations.DELETE
       || String.eqb operation Operations.MODIFY
    then command ++ " " ++ name
    else if String.eqb operation Operations.ADD
    then command ++ " "
         ++ _common_options_builder con_type name ifname auto_connect save
    else command in
  let command :=
    match type_options with
    | Some ((_ :: _) as d) => add_type_options command d
    | _ => command
    end in
  let command :=
    command
    ++ _ip_options_builder
         ipv4_addr ipv4_gw ipv4_method ipv6_addr ipv6_gw ipv6_method in
  command.

End Builder.

(** ** The commands of the operations

    Each operation of the class builds one command and hands it to
    [_exec_command]; [<operation>_command] is the command it builds. *)

Module Commands.
Import Py Builder.

Definition add_ethernet_connection_command
  (name ifname : string) (auto_connect save mac mtu : pyval)
  (ipv4_method ipv4_addr ipv4_gw ipv6_method ipv6_addr ipv6_gw : pyval)
  : string :=
  let type_options : dict pyval := [] in
  let type_options :=
    if truthy mac then dict_set type_options EthernetOptions.MAC mac
    else type_options in
  let type_options :=
    if truthy mtu then dict_set type_options EthernetOptions.MTU mtu
    else type_options in
  _nmcli_cmd_builder Objects.CONNECTION Operations.ADD name
    (PyStr Types.ETHERNET) (PyStr ifname) auto_connect save
    ipv4_method ipv4_addr ipv4_gw ipv6_method ipv6_addr ipv6_gw
    (Some type_options).

Definition add_bond_command
  (con_name ifname : string) (mode miimon auto_connect save : pyval)
  (ipv4_method ipv4_addr ipv4_gw ipv6_method ipv6_addr ipv6_gw : pyval)
  : string :=
  let type_options : dict pyval := [] in
  let type_options :=
    if truthy mode then dict_set type_options BondOptions.MODE mode
    else type_options in
  let type_options :=
    if truthy miimon then dict_set type_options BondOptions.MIIMON miimon
    else type_options in
  _nmcli_cmd_builder Objects.CONNECTION Operations.ADD con_name
    (PyStr Types.BOND) (PyStr ifname) auto_connect save
    ipv4_method ipv4_addr ipv4_gw ipv6_method ipv6_addr ipv6_gw
    (Some type_options).

Definition add_slave_command
  (con_name slave_type ifname master : string) (auto_connect save : pyval)
  : string :=
  let type_options : dict pyval :=
    dict_set [] SlaveOptions.MASTER (PyStr master) in
  _nmcli_cmd_builder Objects.CONNECTION Operations.ADD con_name
    (PyStr slave_type) (PyStr ifname) auto_connect save
    PyNone PyNone PyNone PyNone PyNone PyNone
    (Some type_options).

Definition add_vlan_command
  (con_name dev : string) (vlan_id mtu auto_connect save : pyval)
  (ipv4_method ipv4_addr ipv4_gw ipv6_method ipv6_addr ipv6_gw : pyval)
  : string :=
  let type_options : dict pyval :=
    dict_set (dict_set [] VlanOptions.DEV (PyStr dev))
             VlanOptions.ID vlan_id in
  let type_options :=
    if truthy mtu then dict_set type_options VlanOptions.MTU mtu
    else type_options in
  _nmcli_cmd_builder Objects.CONNECTION Operations.ADD con_name
    (PyStr Types.VLAN) (PyStr dev) auto_connect save
    ipv4_method ipv4_addr ipv4_gw ipv6_method ipv6_addr ipv6_gw
    (Some type_options).

Definition add_dummy_command
  (con_name ifname : string) (auto_connect save : pyval)
  (ipv4_method ipv4_addr ipv4_gw ipv6_method ipv6_addr ipv6_gw : pyval)
  : string :=
  _nmcli_cmd_builder Objects.CONNECTION Operations.ADD con_name
    (PyStr Types.DUMMY) (PyStr ifname) auto_connect save
    ipv4_method ipv4_addr ipv4_gw ipv6_method ipv6_addr ipv6_gw
    None.

Definition modify_connection_command
  (connection : string) (properties : dict pyval) : string :=
  _nmcli_cmd_builder Objects.CONNECTION Operations.MODIFY connection
    PyNone PyNone PyNone PyNone
    PyNone PyNone PyNone PyNone PyNone PyNone
    (Some properties).

Definition delete_connection_command (connection : string) : string :=
  _nmcli_cmd_builder Objects.CONNECTION Operations.DELETE connection
    PyNone PyNone PyNone PyNone
    PyNone PyNone PyNone PyNone PyNone PyNone
    None.

Definition modify_device_command
  (device : string) (properties : dict pyval) : string :=
  _nmcli_cmd_builder Objects.DEVICE Operations.MODIFY device
    PyNone PyNone PyNone PyNone
    PyNone PyNone PyNone PyNone PyNone PyNone
    (Some properties).

End Commands.

(** ** Effects: the executor, the error log and exceptions *)

(** Modelled from the spec: [CommandExecutionFailure] is declared in
    [rrmngmnt.errors], which is not among the sources; the specification has
    it as the one error kind of the module, raised on a non-zero exit code.
    Its fields here are the arguments the [raise] in [_exec_command] gives
    it: [cmd], [rc] and [err].  The [executor] argument is the executor the
    facade was built around, the one whose state the world below holds.
    [ValueError] and [IndexError] are the built-in exceptions [shlex.split]
    and list indexing raise. *)
Inductive exn : Type :=
| ValueError (msg : string)
| IndexError
| CommandExecutionFailure (cmd : list string) (rc : Z) (err : string).

Section Facade.

(** The injected executor: [run_cmd] takes the argument vector and answers
    with exit code, stdout and stderr; [St] is whatever state it keeps. *)
Variable St : Type.
Variable run_cmd : list string -> St -> (Z * string * string) * St.

(** The world a call runs in: the executor's state, the argument vectors the
    executor has been invoked with so far, and the messages logged at error
    level. *)
Record world : Type := World {
  executor_state : St;
  invocations : list (list string);
  error_log : list string
}.

Definition M (A : Type) : Type := world -> (exn + A) * world.

Definition ret {A : Type} (a : A) : M A := fun w => (inr a, w).

Definition raise {A : Type} (e : exn) : M A := fun w => (inl e, w).

Definition bind {A B : Type} (m : M A) (k : A -> M B) : M B :=
  fun w =>
    match m w with
    | (inl e, w') => (inl e, w')
    | (inr a, w') => k a w'
    end.

Notation "x <- m ;; k" := (bind m (fun x => k))
  (at level 61, m at next level, right associativity).
Notation "m ;;; k" := (bind m (fun _ => k))
  (at level 61, right associativity).

(** [self._executor.run_cmd(argv)] *)
Definition executor_run_cmd (argv : list string) : M (Z * string * string) :=
  fun w =>
    let (res, st') := run_cmd argv (executor_state w) in
    (inr res,
     {| executor_state := st';
        invocations := (invocations w ++ [argv])%list;
        error_log := error_log w |}).

(** [self.logger.error(msg)] *)
Definition logger_error (msg : string) : M unit :=
  fun w =>
    (inr tt,
     {| executor_state := executor_state w;
        invocations := invocations w;
        error_log := (error_log w ++ [msg])%list |}).

(** [shlex.split(command)], which raises [ValueError]. *)
Definition shlex_split (command : string) : M (list string) :=
  match Shlex.split command with
  | inl msg => raise (ValueError msg)
  | inr argv => ret argv
  end.

(** [l[i]], which raises [IndexError] out of range. *)
Definition getitem (l : list string) (i : nat) : M string :=
  match nth_error l i with
  | Some x => ret x
  | None => raise IndexError
  end.

(** [for x in l: acc = body(x, acc)] *)
Fixpoint for_each {A B : Type} (l : list A) (body : A -> B -> M B) (acc : B)
  : M B :=
  match l with
  | [] => ret acc
  | x :: r => acc' <- body x acc ;; for_each r body acc'
  end.

(** ** The facade *)

Definition _exec_command (command : string) : M string :=
  split <- shlex_split command ;;
  res <- executor_run_cmd split ;;
  let '(rc, out, err) := res in
  if negb (Z.eqb rc 0) then
    logger_error (ERROR_MSG_FORMAT command rc out err) ;;;
    raise (CommandExecutionFailure split rc err)
  else ret out.

Definition connections_command : string :=
  "nmcli -t " ++ Objects.CONNECTION ++ " " ++ Operations.SHOW.

Definition get_all_connections : M (list (Py.dict string)) :=
  let connections := [] in
  out <- _exec_command connections_command ;;
  for_each (Py.splitlines out)
    (fun line connections =>
       let properties := Py.split ":" line in
       p0 <- getitem properties 0 ;;
       p1 <- getitem properties 1 ;;
       p2 <- getitem properties 2 ;;
       p3 <- getitem properties 3 ;;
       ret (connections
            ++ [[(ConnectionDetails.NAME, p0);
                 (ConnectionDetails.UUID, p1);
                 (ConnectionDetails.TYPE, p2);
                 (ConnectionDetails.DEVICE, p3)]])%list)
    connections.

Definition device_names_command : string :=
  "nmcli -g " ++ NmGeneralSettings.DEVICE ++ " " ++ Objects.DEVICE ++ " "
  ++ Operations.SHOW.

Definition device_details_command (name : string) : string :=
  "nmcli -e no " ++ "-g " ++ NmGeneralSettings.TYPE ++ ","
  ++ NmGeneralSettings.MAC ++ "," ++ NmGeneralSettings.MTU ++ " "
  ++ Objects.DEVICE ++ " " ++ Operations.SHOW ++ " " ++ name.

Definition get_all_devices : M (list (Py.dict string)) :=
  device_names <- _exec_command device_names_command ;;
  let device_names :=
    filter (fun name => negb (String.eqb name ""))
           (Py.splitlines device_names) in
  let devices := [] in
  for_each device_names
    (fun name devices =>
       out <- _exec_command (device_details_command name) ;;
       let properties := Py.splitlines out in
       p0 <- getitem properties 0 ;;
       p1 <- getitem properties 1 ;;
       p2 <- getitem properties 2 ;;
       ret (devices
            ++ [[(DeviceDetails.NAME, name);
                 (DeviceDetails.TYPE, p0);
                 (DeviceDetails.MAC, p1);
                 (DeviceDetails.MTU, p2)]])%list)
    devices.

Definition set_connection_state (connection state : string) : M unit :=
  _exec_command
    ("nmcli " ++ Objects.CONNECTION ++ " " ++ state ++ " " ++ connection) ;;;
  ret tt.

Definition add_ethernet_connection
  (name ifname : string) (auto_connect save mac mtu : Py.pyval)
  (ipv4_method ipv4_addr ipv4_gw ipv6_method ipv6_addr ipv6_gw : Py.pyval)
  : M unit :=
  _exec_command
    (Commands.add_ethernet_connection_command
       name ifname auto_connect save mac mtu
       ipv4_method ipv4_addr ipv4_gw ipv6_method ipv6_addr ipv6_gw) ;;;
  ret tt.

Definition add_bond
  (con_name ifname : string) (mode miimon auto_connect save : Py.pyval)
  (ipv4_method ipv4_addr ipv4_gw ipv6_method ipv6_addr ipv6_gw : Py.pyval)
  : M unit :=
  _exec_command
    (Commands.add_bond_command
       con_name ifname mode miimon auto_connect save
       ipv4_method ipv4_addr ipv4_gw ipv6_method ipv6_addr ipv6_gw) ;;;
  ret tt.

Definition add_slave
  (con_name slave_type ifname master : string)
  (auto_connect save : Py.pyval) : M unit :=
  _exec_command
    (Commands.add_slave_command
       con_name slave_type ifname master auto_connect save) ;;;
  ret tt.

Definition add_vlan
  (con_name dev : string) (vlan_id mtu auto_connect save : Py.pyval)
  (ipv4_method ipv4_addr ipv4_gw ipv6_method ipv6_addr ipv6_gw : Py.pyval)
  : M unit :=
  _exec_command
    (Commands.add_vlan_command
       con_name dev vlan_id mtu auto_connect save
       ipv4_method ipv4_addr ipv4_gw ipv6_method ipv6_addr ipv6_gw) ;;;
  ret tt.

Definition add_dummy
  (con_name ifname : string) (auto_connect save : Py.pyval)
  (ipv4_method ipv4_addr ipv4_gw ipv6_method ipv6_addr ipv6_gw : Py.pyval)
  : M unit :=
  _exec_command
    (Commands.add_dummy_command
       con_name ifname auto_connect save
       ipv4_method ipv4_addr ipv4_gw ipv6_method ipv6_addr ipv6_gw) ;;;
  ret tt.

Definition modify_connection
  (connection : string) (properties : Py.dict Py.pyval) : M unit :=
  _exec_command (Commands.modify_connection_command connection properties) ;;;
  ret tt.

Definition delete_connection (connection : string) : M unit :=
  _exec_command (Commands.delete_connection_command connection) ;;;
  ret tt.

Definition modify_device
  (device : string) (properties : Py.dict Py.pyval) : M unit :=
  _exec_command (Commands.modify_device_command device properties) ;;;
  ret tt.

End Facade.

Arguments World {St}.
Arguments executor_state {St}.
Arguments invocations {St}.
Arguments error_log {St}.
Arguments ret {St A}.
Arguments raise {St A}.
Arguments bind {St A B}.
Arguments for_each {St A B}.
Arguments getitem {St}.
Arguments shlex_split {St}.
Arguments logger_error {St}.
Arguments executor_run_cmd {St}.
Arguments _exec_command {St}.
Arguments get_all_connections {St}.
Arguments get_all_devices {St}.
Arguments set_connection_state {St}.

Arguments add_ethernet_connection {St}.
Arguments add_bond {St}.
Arguments add_slave {St}.
Arguments add_vlan {St}.
Arguments add_dummy {St}.
Arguments modify_connection {St}.
Arguments delete_connection {St}.
Arguments modify_device {St}.


(** ** Runs of the executor, for stating what the facade does *)

(** The world after the executor was invoked with [argvs] and left in state
    [st], nothing being logged. *)
Definition invoked {St : Type} (w : world St) (st : St)
  (argvs : list (list string)) : world St :=
  {| executor_state := st;
     invocations := (invocations w ++ argvs)%list;
     error_log := error_log w |}.

Section Replies.

Variable St : Type.
Variable run_cmd : list string -> St -> (Z * string * string) * St.

(** The replies of the executor to a sequence of invocations, and the state
    it is left in. *)
Fixpoint run_all (argvs : list (list string)) (st : St)
  : list (Z * string * string) * St :=
  match argvs with
  | [] => ([], st)
  | argv :: r =>
      let (reply, st1) := run_cmd argv st in
      let (replies, st2) := run_all r st1 in
      (reply :: replies, st2)
  end.

End Replies.

Arguments run_all {St}.

Definition reply_rc (reply : Z * string * string) : Z := fst (fst reply).
Definition reply_out (reply : Z * string * string) : string :=
  snd (fst reply).

(** The record [get_all_connections] is expected to build from a line. *)
Definition connection_record (line : string) : Py.dict string :=
  let fields := Py.split ":" line in
  [("name", nth 0 fields ""); ("uuid", nth 1 fields "");
   ("type", nth 2 fields ""); ("device", nth 3 fields "")].

(** The record [get_all_devices] is expected to build from a device name and
    the reply to its detail call. *)
Definition device_record (name_reply : string * (Z * string * string))
  : Py.dict string :=
  let lines := Py.splitlines (reply_out (snd name_reply)) in
  [("name", fst name_reply); ("type", nth 0 lines "");
   ("mac", nth 1 lines ""); ("mtu", nth 2 lines "")].

(** ** Concrete executors, for running the facade *)

Module Demo.

(** A connection listing of two profiles. *)
Definition listing : string :=
  "lan:1234-uuid:ethernet:eth0" ++ nl ++ "wifi:5678-uuid:wifi:wlan0".

Definition listing_executor (argv : list string) (st : unit)
  : (Z * string * string) * unit :=
  ((0%Z, listing, ""), tt).

(** A listing with a line of three fields. *)
Definition truncated_executor (argv : list string) (st : unit)
  : (Z * string * string) * unit :=
  ((0%Z, "lan:1234-uuid:ethernet", ""), tt).


(** An executor that fails every command with the same exit code and
    stderr, and a stdout that changes from one invocation to the next. *)
Definition failing_executor (argv : list string) (n : nat)
  : (Z * string * string) * nat :=
  ((1%Z, "attempt " ++ Py.str (Py.PyInt (Z.of_nat n)), "boom"), S n).

(** An executor that succeeds and echoes its argument vector. *)
Definition echo_executor (argv : list string) (st : unit)
  : (Z * string * string) * unit :=
  ((0%Z, String.concat " " argv, ""), tt).

End Demo.

(** ** The words of a command, as the specification describes them

    The specification reads a command as a sequence of words joined by single
    spaces.  The definitions below say which words it expects; the theorems
    compare them with what the builder writes. *)

Module Words.
Import Py Builder.

(** The words of a command: what [command.split(" ")] returns. *)
Definition tokens (command : string) : list string := split " " command.

(** Each word preceded by one space. *)
Fixpoint spaced (l : list string) : string :=
  match l with
  | [] => ""
  | w :: r => " " ++ w ++ spaced r
  end.

(** A value counts as provided when Python's truth test accepts it: it is
    not [None] (and not an empty string, zero or [False]). *)
Definition provided (v : pyval) : bool := truthy v.

(** A key and its rendered value. *)
Definition pair_words (kv : string * pyval) : list string :=
  [fst kv; str (snd kv)].

(** The six IP options in the order of the specification. *)
Definition ip_pairs
  (ipv4_method ipv6_method ipv4_addr ipv4_gw ipv6_addr ipv6_gw : pyval)
  : list (string * pyval) :=
  [("ipv4.method", ipv4_method); ("ipv6.method", ipv6_method);
   ("ipv4.addresses", ipv4_addr); ("ipv4.gateway", ipv4_gw);
   ("ipv6.addresses", ipv6_addr); ("ipv6.gateway", ipv6_gw)].

Definition ip_words
  (ipv4_method ipv6_method ipv4_addr ipv4_gw ipv6_addr ipv6_gw : pyval)
  : list string :=
  flat_map pair_words
    (filter (fun kv => provided (snd kv))
       (ip_pairs ipv4_method ipv6_method ipv4_addr ipv4_gw
                 ipv6_addr ipv6_gw)).

(** [autoconnect yes|no] and [save yes|no], present unless the value is
    [None]. *)
Definition flag_words (key : string) (v : pyval) : list string :=
  match v with
  | PyNone => []
  | _ => [key; _get_str_value v]
  end.

Definition common_words
  (con_type : pyval) (con_name : string) (ifname auto_connect save : pyval)
  : list string :=
  (["type"; str con_type; "con-name"; con_name; "ifname"; str ifname]
   ++ flag_words "autoconnect" auto_connect
   ++ flag_words "save" save)%list.

Definition type_words (type_options : option (dict pyval)) : list string :=
  match type_options with
  | Some d => flat_map pair_words d
  | None => []
  end.

(** The strings of an ADD command that come from the caller: object type,
    connection type, name, interface, the type options and the values of the
    provided IP options. *)
Definition supplied
  (object_type name : string) (con_type ifname : pyval)
  (ipv4_method ipv4_addr ipv4_gw ipv6_method ipv6_addr ipv6_gw : pyval)
  (type_options : option (dict pyval)) : list string :=
  ([object_type; str con_type; name; str ifname]
   ++ type_words type_options
   ++ map str
        (filter provided
           [ipv4_method; ipv6_method; ipv4_addr; ipv4_gw;
            ipv6_addr; ipv6_gw]))%list.

(** The command of an ADD operation, word by word. *)
Definition add_words
  (object_type name : string) (con_type ifname auto_connect save : pyval)
  (ipv4_method ipv4_addr ipv4_gw ipv6_method ipv6_addr ipv6_gw : pyval)
  (type_options : option (dict pyval)) : list string :=
  ([object_type; "add"]
   ++ common_words con_type name ifname auto_connect save
   ++ type_words type_options
   ++ ip_words ipv4_method ipv6_method ipv4_addr ipv4_gw
               ipv6_addr ipv6_gw)%list.

(** The words of an ADD command up to the interface name. *)
Definition head_words
  (object_type name : string) (con_type ifname : pyval) : list string :=
  ["nmcli"; object_type; "add"; "type"; str con_type; "con-name"; name;
   "ifname"; str ifname].

(** [a] immediately followed by [b] in [l]. *)
Definition adjacent (a b : string) (l : list string) : Prop :=
  exists l1 l2, l = (l1 ++ a :: b :: l2)%list.

(** The optional parameters of the builder that have a key of their own. *)
Inductive optional : Type :=
| AutoConnect | Save
| Ipv4Method | Ipv6Method | Ipv4Addr | Ipv4Gw | Ipv6Addr | Ipv6Gw.

Definition key_of (p : optional) : string :=
  match p with
  | AutoConnect => "autoconnect"
  | Save => "save"
  | Ipv4Method => "ipv4.method"
  | Ipv6Method => "ipv6.method"
  | Ipv4Addr => "ipv4.addresses"
  | Ipv4Gw => "ipv4.gateway"
  | Ipv6Addr => "ipv6.addresses"
  | Ipv6Gw => "ipv6.gateway"
  end.

(** The value the caller gave for an optional parameter. *)
Definition value_of (p : optional)
  (auto_connect save : pyval)
  (ipv4_method ipv4_addr ipv4_gw ipv6_method ipv6_addr ipv6_gw : pyval)
  : pyval :=
  match p with
  | AutoConnect => auto_connect
  | Save => save
  | Ipv4Method => ipv4_method
  | Ipv6Method => ipv6_method
  | Ipv4Addr => ipv4_addr
  | Ipv4Gw => ipv4_gw
  | Ipv6Addr => ipv6_addr
  | Ipv6Gw => ipv6_gw
  end.

(** The strings an operation gets from its caller: the names it is given
    and the rendering of every provided value. *)
Definition caller_strings (names : list string) (values : list pyval)
  : list string :=
  (names ++ map str (filter provided values))%list.

End Words.

(** ** Further vocabulary for the properties of the operations *)

(** [c not in s] *)
Fixpoint lacks (c : ascii) (s : string) : bool :=
  match s with
  | EmptyString => true
  | String x r => negb (Ascii.eqb x c) && lacks c r
  end.

(** The values Python's truth test rejects, spelled out: [None], [False],
    [0] and the empty string. *)
Definition is_empty_value (v : Py.pyval) : bool :=
  match v with
  | Py.PyNone => true
  | Py.PyBool false => true
  | Py.PyInt 0%Z => true
  | Py.PyStr EmptyString => true
  | _ => false
  end.

(** The strings of a command that come from the caller, for any operation:
    object type and operation; the name when the operation is [delete] or
    [modify]; connection type, name and interface when it is [add]; the type
    options; the values of the IP options the builder renders. *)
Definition supplied_for
  (object_type operation name : string) (con_type ifname : Py.pyval)
  (ipv4_method ipv4_addr ipv4_gw ipv6_method ipv6_addr ipv6_gw : Py.pyval)
  (type_options : option (Py.dict Py.pyval)) : list string :=
  ([object_type; operation]
   ++ (if String.eqb operation "delete" || String.eqb operation "modify"
       then [name]
       else if String.eqb operation "add"
            then [Py.str con_type; name; Py.str ifname]
            else [])
   ++ Words.type_words type_options
   ++ map Py.str
        (filter Words.provided
           [ipv4_method; ipv6_method; ipv4_addr; ipv4_gw;
            ipv6_addr; ipv6_gw]))%list.

(** The world after a failed command: the executor was invoked with [argv]
    and left in state [st], and [message] went to the error log. *)
Definition failed {St : Type} (w : world St) (st : St)
  (argvs : list (list string)) (message : string) : world St :=
  {| executor_state := st;
     invocations := (invocations w ++ argvs)%list;
     error_log := (error_log w ++ [message])%list |}.

(** The options an operation puts into its mapping only when the caller's
    value passes the truth test. *)
Definition kept (options : list (string * Py.pyval))
  : list (string * Py.pyval) :=
  filter (fun kv => Words.provided (snd kv)) options.

(** More concrete executors. *)

Module Hosts.

(** A connection whose name has a colon in it. *)
Definition colon_executor (argv : list string) (st : unit)
  : (Z * string * string) * unit :=
  ((0%Z, "my:lan:1234-uuid:ethernet:eth0", ""), tt).

Definition details (mac mtu : string) : string :=
  "ethernet" ++ nl ++ mac ++ nl ++ mtu ++ nl.

(** Three devices; the detail call for the second one fails. *)
Definition flaky_executor (argv : list string) (n : nat)
  : (Z * string * string) * nat :=
  match n with
  | 0 => ((0%Z, "eth0" ++ nl ++ "eth1" ++ nl ++ "eth2" ++ nl, ""), S n)
  | 1 => ((0%Z, details "aa:bb:cc:dd:ee:01" "1500", ""), S n)
  | 2 => ((10%Z, "", "Error: Device 'eth1' not found."), S n)
  | _ => ((0%Z, details "aa:bb:cc:dd:ee:03" "1500", ""), S n)
  end.

(** Two devices; the detail reply for the second one has two lines. *)
Definition short_executor (argv : list string) (n : nat)
  : (Z * string * string) * nat :=
  match n with
  | 0 => ((0%Z, "eth0" ++ nl ++ "lo" ++ nl, ""), S n)
  | 1 => ((0%Z, details "aa:bb:cc:dd:ee:01" "1500", ""), S n)
  | _ => ((0%Z, "loopback" ++ nl ++ "65536", ""), S n)
  end.

(** Two devices; the name of the second one has a single quote in it. *)
Definition quote_executor (argv : list string) (n : nat)
  : (Z * string * string) * nat :=
  match n with
  | 0 => ((0%Z, "eth0" ++ nl ++ "wlan'0" ++ nl, ""), S n)
  | _ => ((0%Z, details "aa:bb:cc:dd:ee:01" "1500", ""), S n)
  end.

End Hosts.

(** * Properties *)

(** ** Strings and words *)

Section StringFacts.
Import Py Words.

Lemma append_assoc (a b c : string) : (a ++ b) ++ c = a ++ (b ++ c).
Proof.
  induction a as [|x a IH]; simpl; [reflexivity | now rewrite IH].
Qed.

Lemma append_nil_r (a : string) : a ++ "" = a.
Proof.
  induction a as [|x a IH]; simpl; [reflexivity | now rewrite IH].
Qed.

Lemma split_not_nil (sep : ascii) (s : string) : split sep s <> [].
Proof.
  destruct s as [|c r]; simpl; [discriminate|].
  destruct (Ascii.eqb c sep); [discriminate|].
  destruct (split sep r); discriminate.
Qed.

(** Splitting at a separator splits the list of fields. *)
Lemma split_app_sep (sep : ascii) (a b : string) :
  split sep (a ++ String sep b) = (split sep a ++ split sep b)%list.
Proof.
  induction a as [|c a IH]; simpl.
  - now rewrite Ascii.eqb_refl.
  - destruct (Ascii.eqb c sep); [now rewrite IH|].
    rewrite IH.
    destruct (split sep a) as [|h t] eqn:E; [|reflexivity].
    now apply split_not_nil in E.
Qed.

Lemma spaced_app (l1 l2 : list string) :
  spaced (l1 ++ l2) = spaced l1 ++ spaced l2.
Proof.
  induction l1 as [|w l1 IH]; simpl; [reflexivity|].
  now rewrite IH, append_assoc.
Qed.

Lemma tokens_spaced (h : string) (l : list string) :
  tokens (h ++ spaced l) = (tokens h ++ flat_map tokens l)%list.
Proof.
  revert h; induction l as [|w l IH]; intros h; simpl.
  - now rewrite append_nil_r, app_nil_r.
  - unfold tokens in *. rewrite split_app_sep, IH. reflexivity.
Qed.

End StringFacts.

(** ** The builder writes the words the specification lists *)

Section BuilderFacts.
Import Py Builder Words.

(** Brings both sides of an equation between concatenations to the same
    shape: appends nested to the right, literals unfolded. *)
Ltac string_normal :=
  repeat first [ rewrite append_assoc
               | progress cbn [String.append spaced] ];
  repeat rewrite append_nil_r;
  try reflexivity.

Lemma ip_options_spaced
  (ipv4_addr ipv4_gw ipv4_method ipv6_addr ipv6_gw ipv6_method : pyval) :
  _ip_options_builder
    ipv4_addr ipv4_gw ipv4_method ipv6_addr ipv6_gw ipv6_method
  = spaced (ip_words ipv4_method ipv6_method ipv4_addr ipv4_gw
                     ipv6_addr ipv6_gw).
Proof.
  unfold _ip_options_builder, ip_words, ip_pairs, provided.
  cbn [filter snd].
  destruct (truthy ipv4_method), (truthy ipv6_method), (truthy ipv4_addr),
    (truthy ipv4_gw), (truthy ipv6_addr), (truthy ipv6_gw);
    cbn [flat_map pair_words fst snd app]; string_normal.
Qed.

Lemma common_options_spaced
  (con_type : pyval) (con_name : string) (ifname auto_connect save : pyval) :
  " " ++ _common_options_builder con_type con_name ifname auto_connect save
  = spaced (common_words con_type con_name ifname auto_connect save).
Proof.
  unfold _common_options_builder, common_words.
  destruct auto_connect, save;
    cbn [is_not_none flag_words app]; string_normal.
Qed.

Lemma add_type_options_spaced (d : dict pyval) (command : string) :
  add_type_options command d = command ++ spaced (flat_map pair_words d).
Proof.
  unfold add_type_options.
  revert command; induction d as [|kv d IH]; intros command; simpl.
  - now rewrite append_nil_r.
  - rewrite IH. string_normal.
Qed.

Lemma builder_add_spaced
  (object_type name : string) (con_type ifname auto_connect save : pyval)
  (ipv4_method ipv4_addr ipv4_gw ipv6_method ipv6_addr ipv6_gw : pyval)
  (type_options : option (dict pyval)) :
  _nmcli_cmd_builder object_type Operations.ADD name
    con_type ifname auto_connect save
    ipv4_method ipv4_addr ipv4_gw ipv6_method ipv6_addr ipv6_gw type_options
  = "nmcli"
    ++ spaced (add_words object_type name con_type ifname auto_connect save
                 ipv4_method ipv4_addr ipv4_gw ipv6_method ipv6_addr ipv6_gw
                 type_options).
Proof.
  unfold _nmcli_cmd_builder, add_words.
  change (String.eqb Operations.ADD Operations.DELETE
          || String.eqb Operations.ADD Operations.MODIFY) with false.
  change (String.eqb Operations.ADD Operations.ADD) with true.
  cbv iota.
  rewrite ip_options_spaced.
  rewrite !spaced_app, <- common_options_spaced.
  assert (T : forall command,
             match type_options with
             | Some ((_ :: _) as d) => add_type_options command d
             | _ => command
             end = command ++ spaced (type_words type_options)).
  { intros command. destruct type_options as [[|kv d]|]; cbn [type_words].
    - now rewrite append_nil_r.
    - apply add_type_options_spaced.
    - now rewrite append_nil_r. }
  rewrite T. unfold Operations.ADD. string_normal.
Qed.

Lemma builder_add_tokens
  (object_type name : string) (con_type ifname auto_connect save : pyval)
  (ipv4_method ipv4_addr ipv4_gw ipv6_method ipv6_addr ipv6_gw : pyval)
  (type_options : option (dict pyval)) :
  tokens
    (_nmcli_cmd_builder object_type Operations.ADD name
       con_type ifname auto_connect save
       ipv4_method ipv4_addr ipv4_gw ipv6_method ipv6_addr ipv6_gw
       type_options)
  = "nmcli"
    :: flat_map tokens
         (add_words object_type name con_type ifname auto_connect save
            ipv4_method ipv4_addr ipv4_gw ipv6_method ipv6_addr ipv6_gw
            type_options).
Proof.
  rewrite builder_add_spaced, tokens_spaced. reflexivity.
Qed.

Lemma flag_words_tokens (key : string) (v : pyval) :
  tokens key = [key] ->
  flat_map tokens (flag_words key v) = flag_words key v.
Proof.
  intros K. destruct v as [|[|]|z|x]; cbn [flag_words flat_map];
    rewrite ?K; reflexivity.
Qed.

(** The words of an ADD command, group by group. *)
Lemma add_command_tokens
  (object_type name : string) (con_type ifname auto_connect save : pyval)
  (ipv4_method ipv4_addr ipv4_gw ipv6_method ipv6_addr ipv6_gw : pyval)
  (type_options : option (dict pyval)) :
  tokens
    (_nmcli_cmd_builder object_type Operations.ADD name
       con_type ifname auto_connect save
       ipv4_method ipv4_addr ipv4_gw ipv6_method ipv6_addr ipv6_gw
       type_options)
  = (flat_map tokens (head_words object_type name con_type ifname)
     ++ flag_words "autoconnect" auto_connect
     ++ flag_words "save" save
     ++ flat_map tokens (type_words type_options)
     ++ flat_map tokens
          (ip_words ipv4_method ipv6_method ipv4_addr ipv4_gw
                    ipv6_addr ipv6_gw))%list.
Proof.
  rewrite builder_add_tokens. unfold add_words, common_words, head_words.
  rewrite !flat_map_app.
  rewrite (flag_words_tokens "autoconnect"), (flag_words_tokens "save")
    by reflexivity.
  cbn [flat_map app]. unfold tokens at 1 3 4 6 8.
  cbn [split Ascii.eqb Bool.eqb app].
  repeat (rewrite <- ?app_assoc; cbn [app]). reflexivity.
Qed.

Lemma ip_pairs_keys_values
  (ipv4_method ipv6_method ipv4_addr ipv4_gw ipv6_addr ipv6_gw : pyval)
  (kv : string * pyval) :
  In kv (filter (fun kv => provided (snd kv))
           (ip_pairs ipv4_method ipv6_method ipv4_addr ipv4_gw
                     ipv6_addr ipv6_gw)) ->
  In (fst kv)
     ["ipv4.method"; "ipv6.method"; "ipv4.addresses"; "ipv4.gateway";
      "ipv6.addresses"; "ipv6.gateway"]
  /\ In (snd kv)
        (filter provided
           [ipv4_method; ipv6_method; ipv4_addr; ipv4_gw;
            ipv6_addr; ipv6_gw])
  /\ In kv (ip_pairs ipv4_method ipv6_method ipv4_addr ipv4_gw
                     ipv6_addr ipv6_gw).
Proof.
  rewrite filter_In. intros [I P]. rewrite filter_In.
  unfold ip_pairs in *. cbn [In] in *.
  repeat split; try assumption;
    repeat (destruct I as [I|I]; [subst kv; cbn [fst snd]; auto 10|]);
    contradiction.
Qed.

(** Where a word of an ADD command comes from: the fixed words, a flag, the
    key of a provided IP option, or a string the caller supplied. *)
Lemma add_command_word_origin
  (object_type name : string) (con_type ifname auto_connect save : pyval)
  (ipv4_method ipv4_addr ipv4_gw ipv6_method ipv6_addr ipv6_gw : pyval)
  (type_options : option (dict pyval)) (w : string) :
  In w (tokens
          (_nmcli_cmd_builder object_type Operations.ADD name
             con_type ifname auto_connect save
             ipv4_method ipv4_addr ipv4_gw ipv6_method ipv6_addr ipv6_gw
             type_options)) ->
  In w ["nmcli"; "add"; "type"; "con-name"; "ifname"]
  \/ In w (flag_words "autoconnect" auto_connect)
  \/ In w (flag_words "save" save)
  \/ (exists v, provided v = true
                /\ In (w, v) (ip_pairs ipv4_method ipv6_method ipv4_addr
                                       ipv4_gw ipv6_addr ipv6_gw))
  \/ (exists s, In s (supplied object_type name con_type ifname
                        ipv4_method ipv4_addr ipv4_gw
                        ipv6_method ipv6_addr ipv6_gw type_options)
                /\ In w (tokens s)).
Proof.
  rewrite add_command_tokens. unfold supplied.
  rewrite !in_app_iff. intros [H|[H|[H|[H|H]]]].
  - apply in_flat_map in H. destruct H as (s & I & T).
    unfold head_words in I. cbn [In] in I.
    repeat (destruct I as [I|I];
            [subst s;
             first [ left; cbn in T; cbn [In]; tauto
                   | do 4 right; eexists; split; [|exact T];
                     rewrite !in_app_iff; cbn [In]; tauto ]|]).
    contradiction.
  - tauto.
  - tauto.
  - do 4 right. apply in_flat_map in H. destruct H as (s & I & T).
    exists s. split; [|exact T]. rewrite !in_app_iff. tauto.
  - apply in_flat_map in H. destruct H as (s & I & T).
    unfold ip_words in I. apply in_flat_map in I. destruct I as (kv & I & K).
    pose proof (ip_pairs_keys_values _ _ _ _ _ _ _ I) as (Kk & Kv & Kp).
    apply filter_In in I. destruct I as [_ P].
    unfold pair_words in K. cbn [In] in K. destruct K as [K|[K|[]]]; subst s.
    + do 3 right. left. exists (snd kv). split; [exact P|].
      cbn [In] in Kk.
      assert (W : w = fst kv).
      { repeat (destruct Kk as [Kk|Kk];
                [rewrite <- Kk in T |- *; cbn in T; intuition congruence|]).
        contradiction. }
      rewrite W. now destruct kv.
    + do 4 right. exists (str (snd kv)). split; [|exact T].
      rewrite !in_app_iff. right. right. now apply in_map.
Qed.

End BuilderFacts.

(** ** ADD commands: flags, ordering and omission *)

Section AddCommand.
Import Py Builder Words.

Variables (object_type name : string) (con_type ifname : pyval).
Variables (ipv4_method ipv4_addr ipv4_gw : pyval).
Variables (ipv6_method ipv6_addr ipv6_gw : pyval).
Variable type_options : option (dict pyval).

Local Notation command auto_connect save :=
  (_nmcli_cmd_builder object_type Operations.ADD name
     con_type ifname auto_connect save
     ipv4_method ipv4_addr ipv4_gw ipv6_method ipv6_addr ipv6_gw
     type_options).

Local Notation head :=
  (flat_map tokens (head_words object_type name con_type ifname)).

Local Notation options :=
  (flat_map tokens (type_words type_options)
   ++ flat_map tokens
        (ip_words ipv4_method ipv6_method ipv4_addr ipv4_gw
                  ipv6_addr ipv6_gw))%list.

(** No string the caller supplied has [w] among its words. *)
Local Notation unsupplied w :=
  (Forall (fun s => ~ In w (tokens s))
     (supplied object_type name con_type ifname
        ipv4_method ipv4_addr ipv4_gw ipv6_method ipv6_addr ipv6_gw
        type_options)).

Lemma not_supplied (w : string) :
  unsupplied w ->
  ~ (exists s, In s (supplied object_type name con_type ifname
                       ipv4_method ipv4_addr ipv4_gw
                       ipv6_method ipv6_addr ipv6_gw type_options)
               /\ In w (tokens s)).
Proof.
  intros F (s & I & T). rewrite Forall_forall in F. exact (F s I T).
Qed.

Lemma flag_words_members (key w : string) (v : pyval) :
  In w (flag_words key v) -> w = key \/ w = "yes" \/ w = "no".
Proof.
  destruct v as [|[|]|z|x]; cbn; intuition congruence.
Qed.

(** C3 (explicit-false-is-rendered).  In every ADD command built with
    [auto_connect=False] the words [autoconnect no] follow the interface
    name, and with [save=False] the words [save no] follow the autoconnect
    flag; the value is the literal [no].  With [auto_connect=None]
    (respectively [save=None]) the command has no word [autoconnect]
    (respectively [save]) at all, unless a string of the caller brings it. *)
Theorem explicit_false_is_rendered :
  (forall save,
      tokens (command (PyBool false) save)
      = (head ++ "autoconnect" :: "no" :: flag_words "save" save
         ++ options)%list)
  /\ (forall auto_connect,
         tokens (command auto_connect (PyBool false))
         = (head ++ flag_words "autoconnect" auto_connect
            ++ "save" :: "no" :: options)%list)
  /\ (forall save,
         unsupplied "autoconnect" ->
         ~ In "autoconnect" (tokens (command PyNone save)))
  /\ (forall auto_connect,
         unsupplied "save" ->
         ~ In "save" (tokens (command auto_connect PyNone))).
Proof.
  repeat split.
  - intros save. rewrite add_command_tokens. reflexivity.
  - intros auto_connect. rewrite add_command_tokens. reflexivity.
  - intros save F I. apply add_command_word_origin in I.
    destruct I as [I|[I|[I|[(v & _ & I)|I]]]].
    + cbn in I. intuition discriminate.
    + exact I.
    + apply flag_words_members in I. intuition discriminate.
    + cbn in I. intuition discriminate.
    + exact (not_supplied _ F I).
  - intros auto_connect F I. apply add_command_word_origin in I.
    destruct I as [I|[I|[I|[(v & _ & I)|I]]]].
    + cbn in I. intuition discriminate.
    + apply flag_words_members in I. intuition discriminate.
    + exact I.
    + cbn in I. intuition discriminate.
    + exact (not_supplied _ F I).
Qed.

(** C10.  In an ADD command built with [auto_connect] (or [save]) other than
    [None], the value after the key is [yes] when the parameter is the
    boolean [True] and [no] for every other value; the integer [1], truthy
    as it is, gives [no]. *)
Theorem flag_is_yes_only_for_True :
  (forall save,
      tokens (command (PyBool true) save)
      = (head ++ "autoconnect" :: "yes" :: flag_words "save" save
         ++ options)%list)
  /\ (forall auto_connect save,
         auto_connect <> PyNone -> auto_connect <> PyBool true ->
         tokens (command auto_connect save)
         = (head ++ "autoconnect" :: "no" :: flag_words "save" save
            ++ options)%list)
  /\ (forall auto_connect,
         tokens (command auto_connect (PyBool true))
         = (head ++ flag_words "autoconnect" auto_connect
            ++ "save" :: "yes" :: options)%list)
  /\ (forall auto_connect save,
         save <> PyNone -> save <> PyBool true ->
         tokens (command auto_connect save)
         = (head ++ flag_words "autoconnect" auto_connect
            ++ "save" :: "no" :: options)%list)
  /\ tokens (command (PyInt 1) (PyInt 1))
     = (head ++ "autoconnect" :: "no" :: "save" :: "no" :: options)%list.
Proof.
  repeat split; intros; rewrite add_command_tokens; try reflexivity.
  - destruct auto_connect as [|[|]|z|x]; try reflexivity; congruence.
  - destruct save as [|[|]|z|x]; try reflexivity; congruence.
Qed.

(** C4.  An ADD command is the common options (type, con-name, ifname,
    autoconnect, save), then the type-specific options in the order of the
    mapping, then the IP options: every word of a type option comes before
    every word of an IP option. *)
Theorem type_options_before_ip_options (auto_connect save : pyval) :
  command auto_connect save
  = ("nmcli"
     ++ spaced (object_type :: "add"
                :: common_words con_type name ifname auto_connect save))
    ++ spaced (type_words type_options)
    ++ spaced (ip_words ipv4_method ipv6_method ipv4_addr ipv4_gw
                        ipv6_addr ipv6_gw)
  /\ tokens (command auto_connect save)
     = ((head ++ flag_words "autoconnect" auto_connect
         ++ flag_words "save" save)
        ++ flat_map tokens (type_words type_options)
        ++ flat_map tokens
             (ip_words ipv4_method ipv6_method ipv4_addr ipv4_gw
                       ipv6_addr ipv6_gw))%list.
Proof.
  split.
  - rewrite builder_add_spaced. unfold add_words.
    cbn [app]. rewrite !app_comm_cons, !spaced_app.
    now rewrite !append_assoc.
  - rewrite add_command_tokens. now rewrite <- !app_assoc.
Qed.

(** The key of an optional parameter left at [None] is not a word of the
    command, unless a string of the caller brings it. *)
Lemma unset_key_is_no_word (p : optional) (auto_connect save : pyval) :
  value_of p auto_connect save
    ipv4_method ipv4_addr ipv4_gw ipv6_method ipv6_addr ipv6_gw = PyNone ->
  unsupplied (key_of p) ->
  ~ In (key_of p) (tokens (command auto_connect save)).
Proof.
  intros V F I. apply add_command_word_origin in I.
  destruct I as [I|[I|[I|[(v & P & I)|I]]]].
  - destruct p; cbn in I; intuition discriminate.
  - destruct p; cbn [value_of] in V; subst;
      try (apply flag_words_members in I; cbn in I; intuition discriminate).
    exact I.
  - destruct p; cbn [value_of] in V; subst;
      try (apply flag_words_members in I; cbn in I; intuition discriminate).
    exact I.
  - unfold ip_pairs in I. cbn [In] in I.
    destruct p; cbn [value_of key_of] in V, I; subst;
      repeat (destruct I as [I|I];
              [first [discriminate I | injection I as <-; discriminate P]|]);
      contradiction.
  - exact (not_supplied _ F I).
Qed.

(** No word of the command is empty (no doubled or trailing separator),
    unless a string of the caller brings an empty word. *)
Lemma no_empty_word (auto_connect save : pyval) :
  unsupplied "" ->
  ~ In "" (tokens (command auto_connect save)).
Proof.
  intros F I. apply add_command_word_origin in I.
  destruct I as [I|[I|[I|[(v & P & I)|I]]]].
  - cbn in I; intuition discriminate.
  - apply flag_words_members in I; intuition discriminate.
  - apply flag_words_members in I; intuition discriminate.
  - cbn in I; intuition discriminate.
  - exact (not_supplied _ F I).
Qed.

End AddCommand.

(** ** IP options *)

Section IpOptions.
Import Py Builder Words.

(** The truth test of the code accepts exactly the values that are not
    empty. *)
Lemma truthy_not_empty (v : pyval) : truthy v = negb (is_empty_value v).
Proof.
  destruct v as [|b|z|x]; cbn [truthy is_empty_value].
  - reflexivity.
  - now destruct b.
  - now destruct z.
  - now destruct x.
Qed.

(** C5, as the code has it.  The IP options close the command, and they are
    taken from [ipv4.method], [ipv6.method], [ipv4.addresses],
    [ipv4.gateway], [ipv6.addresses], [ipv6.gateway] in this order, each as
    its key followed by its value.  A pair appears exactly when its value is
    neither [None] nor empty (the empty string, [0], [False]): a value that
    is given but empty is left out like an absent one. *)
Theorem ip_options_fixed_order
  (object_type operation name : string)
  (con_type ifname auto_connect save : pyval)
  (ipv4_method ipv4_addr ipv4_gw ipv6_method ipv6_addr ipv6_gw : pyval)
  (type_options : option (dict pyval)) :
  _ip_options_builder
    ipv4_addr ipv4_gw ipv4_method ipv6_addr ipv6_gw ipv6_method
  = spaced
      (flat_map pair_words
         (filter (fun kv => negb (is_empty_value (snd kv)))
            [("ipv4.method", ipv4_method); ("ipv6.method", ipv6_method);
             ("ipv4.addresses", ipv4_addr); ("ipv4.gateway", ipv4_gw);
             ("ipv6.addresses", ipv6_addr); ("ipv6.gateway", ipv6_gw)]))
  /\ _nmcli_cmd_builder object_type operation name
       con_type ifname auto_connect save
       ipv4_method ipv4_addr ipv4_gw ipv6_method ipv6_addr ipv6_gw
       type_options
     = _nmcli_cmd_builder object_type operation name
         con_type ifname auto_connect save
         PyNone PyNone PyNone PyNone PyNone PyNone type_options
       ++ _ip_options_builder
            ipv4_addr ipv4_gw ipv4_method ipv6_addr ipv6_gw ipv6_method.
Proof.
  split.
  - rewrite ip_options_spaced. unfold ip_words, ip_pairs, provided.
    do 2 f_equal. apply filter_ext. intros kv. apply truthy_not_empty.
  - unfold _nmcli_cmd_builder.
    change (_ip_options_builder PyNone PyNone PyNone PyNone PyNone PyNone)
      with "".
    now rewrite append_nil_r.
Qed.

End IpOptions.

(** ** Options the caller leaves out *)

Section Omission.
Import Py Builder Words Commands.

Lemma caller_strings_name (names : list string) (values : list pyval)
  (s : string) :
  In s names -> In s (caller_strings names values).
Proof.
  intros I. unfold caller_strings. apply in_or_app. now left.
Qed.

Lemma caller_strings_value (names : list string) (values : list pyval)
  (v : pyval) :
  In v values -> provided v = true ->
  In (str v) (caller_strings names values).
Proof.
  intros I P. unfold caller_strings. apply in_or_app. right.
  apply in_map. apply filter_In. now split.
Qed.

Lemma caller_strings_values (names : list string) (some values : list pyval)
  (s : string) :
  incl some values ->
  In s (map str (filter provided some)) ->
  In s (caller_strings names values).
Proof.
  intros Sub I. apply in_map_iff in I. destruct I as (v & <- & I).
  apply filter_In in I. destruct I as [I P].
  apply caller_strings_value; [now apply Sub | exact P].
Qed.

(** Closes [~ In w (tokens command)] for a command of an add operation
    whose type options are known, [F] saying that no string of the caller
    has the word [w]. *)
Ltac absent_word F I :=
  rewrite Forall_forall in F;
  apply add_command_word_origin in I;
  destruct I as [I|[I|[I|[(?v & _ & I)|(?s & I & ?T)]]]];
  [ cbn in I; intuition discriminate
  | apply flag_words_members in I; intuition discriminate
  | apply flag_words_members in I; intuition discriminate
  | cbn in I; intuition discriminate
  | unfold supplied in I; rewrite !in_app_iff in I;
    destruct I as [I|[I|I]];
    [ cbn [In str] in I;
      repeat (destruct I as [I|I];
              [ subst;
                first [ cbn in T; intuition discriminate
                      | eapply F; [|exact T];
                        apply caller_strings_name; cbn [In]; tauto ] |]);
      contradiction
    | cbn [type_words flat_map pair_words fst snd app In str] in I;
      repeat (destruct I as [I|I];
              [ subst;
                first [ cbn in T; intuition discriminate
                      | eapply F; [|exact T];
                        first [ apply caller_strings_name; cbn [In]; tauto
                              | apply caller_strings_value;
                                [cbn [In]; tauto | assumption] ] ] |]);
      contradiction
    | eapply F; [|exact T];
      eapply caller_strings_values; [|exact I];
      intros ?x ?Hx; cbn [In] in *; tauto ] ].

Lemma ethernet_without_mac
  (name ifname : string) (auto_connect save mtu : pyval)
  (ipv4_method ipv4_addr ipv4_gw ipv6_method ipv6_addr ipv6_gw : pyval) :
  Forall (fun s => ~ In "mac" (tokens s))
    (caller_strings [name; ifname]
       [mtu; ipv4_method; ipv6_method; ipv4_addr; ipv4_gw;
        ipv6_addr; ipv6_gw]) ->
  ~ In "mac"
      (tokens (add_ethernet_connection_command name ifname auto_connect save
                 PyNone mtu
                 ipv4_method ipv4_addr ipv4_gw
                 ipv6_method ipv6_addr ipv6_gw)).
Proof.
  intros F I. unfold add_ethernet_connection_command in I.
  cbn [truthy] in I. destruct (truthy mtu) eqn:E; cbn [dict_set] in I.
  - absent_word F I.
  - absent_word F I.
Qed.

Lemma ethernet_without_mtu
  (name ifname : string) (auto_connect save mac : pyval)
  (ipv4_method ipv4_addr ipv4_gw ipv6_method ipv6_addr ipv6_gw : pyval) :
  Forall (fun s => ~ In "mtu" (tokens s))
    (caller_strings [name; ifname]
       [mac; ipv4_method; ipv6_method; ipv4_addr; ipv4_gw;
        ipv6_addr; ipv6_gw]) ->
  ~ In "mtu"
      (tokens (add_ethernet_connection_command name ifname auto_connect save
                 mac PyNone
                 ipv4_method ipv4_addr ipv4_gw
                 ipv6_method ipv6_addr ipv6_gw)).
Proof.
  intros F I. unfold add_ethernet_connection_command in I.
  cbn [truthy] in I. destruct (truthy mac) eqn:E; cbn [dict_set] in I.
  - absent_word F I.
  - absent_word F I.
Qed.

Lemma bond_without_mode
  (con_name ifname : string) (miimon auto_connect save : pyval)
  (ipv4_method ipv4_addr ipv4_gw ipv6_method ipv6_addr ipv6_gw : pyval) :
  Forall (fun s => ~ In "mode" (tokens s))
    (caller_strings [con_name; ifname]
       [miimon; ipv4_method; ipv6_method; ipv4_addr; ipv4_gw;
        ipv6_addr; ipv6_gw]) ->
  ~ In "mode"
      (tokens (add_bond_command con_name ifname PyNone miimon
                 auto_connect save
                 ipv4_method ipv4_addr ipv4_gw
                 ipv6_method ipv6_addr ipv6_gw)).
Proof.
  intros F I. unfold add_bond_command in I.
  cbn [truthy] in I. destruct (truthy miimon) eqn:E; cbn [dict_set] in I.
  - absent_word F I.
  - absent_word F I.
Qed.

Lemma bond_without_miimon
  (con_name ifname : string) (mode auto_connect save : pyval)
  (ipv4_method ipv4_addr ipv4_gw ipv6_method ipv6_addr ipv6_gw : pyval) :
  Forall (fun s => ~ In "miimon" (tokens s))
    (caller_strings [con_name; ifname]
       [mode; ipv4_method; ipv6_method; ipv4_addr; ipv4_gw;
        ipv6_addr; ipv6_gw]) ->
  ~ In "miimon"
      (tokens (add_bond_command con_name ifname mode PyNone
                 auto_connect save
                 ipv4_method ipv4_addr ipv4_gw
                 ipv6_method ipv6_addr ipv6_gw)).
Proof.
  intros F I. unfold add_bond_command in I.
  cbn [truthy] in I. destruct (truthy mode) eqn:E; cbn [dict_set] in I.
  - absent_word F I.
  - absent_word F I.
Qed.

Lemma vlan_without_mtu
  (con_name dev : string) (vlan_id auto_connect save : pyval)
  (ipv4_method ipv4_addr ipv4_gw ipv6_method ipv6_addr ipv6_gw : pyval) :
  Forall (fun s => ~ In "mtu" (tokens s))
    (caller_strings [con_name; dev; str vlan_id]
       [ipv4_method; ipv6_method; ipv4_addr; ipv4_gw;
        ipv6_addr; ipv6_gw]) ->
  ~ In "mtu"
      (tokens (add_vlan_command con_name dev vlan_id PyNone
                 auto_connect save
                 ipv4_method ipv4_addr ipv4_gw
                 ipv6_method ipv6_addr ipv6_gw)).
Proof.
  intros F I. unfold add_vlan_command in I.
  cbn [truthy dict_set String.eqb Ascii.eqb Bool.eqb VlanOptions.DEV
       VlanOptions.ID] in I.
  absent_word F I.
Qed.

End Omission.

(** ** Zero-valued numeric parameters *)

Section ZeroValues.
Import Py Builder Words Commands.

(** C2.  What the add operations do with a zero.  [add_vlan] puts the VLAN
    id in the mapping without a test, so [id 0] is in the command.  The
    tests [if mtu:] and [if miimon:] take a zero for an absent value: the
    command built with [mtu=0] or [miimon=0] is the command built with
    [None], and has no [mtu] or [miimon] word. *)
Theorem zero_values_in_add_operations :
  (forall (con_name dev : string) (mtu auto_connect save : pyval)
          (ipv4_method ipv4_addr ipv4_gw : pyval)
          (ipv6_method ipv6_addr ipv6_gw : pyval),
      adjacent "id" "0"
        (tokens (add_vlan_command con_name dev (PyInt 0) mtu
                   auto_connect save
                   ipv4_method ipv4_addr ipv4_gw
                   ipv6_method ipv6_addr ipv6_gw)))
  /\ (forall (con_name dev : string) (vlan_id auto_connect save : pyval)
             (ipv4_method ipv4_addr ipv4_gw : pyval)
             (ipv6_method ipv6_addr ipv6_gw : pyval),
         add_vlan_command con_name dev vlan_id (PyInt 0) auto_connect save
           ipv4_method ipv4_addr ipv4_gw ipv6_method ipv6_addr ipv6_gw
         = add_vlan_command con_name dev vlan_id PyNone auto_connect save
             ipv4_method ipv4_addr ipv4_gw ipv6_method ipv6_addr ipv6_gw)
  /\ (forall (name ifname : string) (auto_connect save mac : pyval)
             (ipv4_method ipv4_addr ipv4_gw : pyval)
             (ipv6_method ipv6_addr ipv6_gw : pyval),
         add_ethernet_connection_command name ifname auto_connect save
           mac (PyInt 0)
           ipv4_method ipv4_addr ipv4_gw ipv6_method ipv6_addr ipv6_gw
         = add_ethernet_connection_command name ifname auto_connect save
             mac PyNone
             ipv4_method ipv4_addr ipv4_gw ipv6_method ipv6_addr ipv6_gw)
  /\ (forall (con_name ifname : string) (mode auto_connect save : pyval)
             (ipv4_method ipv4_addr ipv4_gw : pyval)
             (ipv6_method ipv6_addr ipv6_gw : pyval),
         add_bond_command con_name ifname mode (PyInt 0) auto_connect save
           ipv4_method ipv4_addr ipv4_gw ipv6_method ipv6_addr ipv6_gw
         = add_bond_command con_name ifname mode PyNone auto_connect save
             ipv4_method ipv4_addr ipv4_gw ipv6_method ipv6_addr ipv6_gw)
  /\ add_bond_command "bond0" "bond0" (PyStr "active-backup") (PyInt 0)
       PyNone PyNone PyNone PyNone PyNone PyNone PyNone PyNone
     = "nmcli connection add type bond con-name bond0 ifname bond0 "
       ++ "mode active-backup"
  /\ add_vlan_command "vlan0" "eth0" (PyInt 0) (PyInt 0)
       PyNone PyNone PyNone PyNone PyNone PyNone PyNone PyNone
     = "nmcli connection add type vlan con-name vlan0 ifname eth0 "
       ++ "dev eth0 id 0".
Proof.
  split; [|split; [|split; [|split; [|split]]]].
  - intros. unfold add_vlan_command.
    rewrite add_command_tokens.
    cbn [dict_set String.eqb Ascii.eqb Bool.eqb VlanOptions.DEV
         VlanOptions.ID VlanOptions.MTU].
    exists (flat_map tokens
              (head_words Objects.CONNECTION con_name (PyStr Types.VLAN)
                 (PyStr dev))
            ++ flag_words "autoconnect" auto_connect
            ++ flag_words "save" save
            ++ tokens "dev" ++ tokens dev)%list.
    destruct (truthy mtu);
      cbn [dict_set String.eqb Ascii.eqb Bool.eqb VlanOptions.DEV
           VlanOptions.ID VlanOptions.MTU type_words flat_map pair_words
           fst snd app str];
      eexists; rewrite <- !app_assoc; do 5 f_equal; reflexivity.
  - intros. reflexivity.
  - intros. reflexivity.
  - intros. reflexivity.
  - vm_compute. reflexivity.
  - vm_compute. reflexivity.
Qed.

End ZeroValues.

(** ** The facade *)

Section FacadeFacts.

Variable St : Type.
Variable run_cmd : list string -> St -> (Z * string * string) * St.

Lemma bind_inr {A B : Type} (m : M St A) (k : A -> M St B)
  (w w' : world St) (a : A) :
  m w = (inr a, w') -> bind m k w = k a w'.
Proof.
  intros E. unfold bind. now rewrite E.
Qed.

(** What one call of [_exec_command] does, once the command is tokenised and
    the executor has answered. *)
Lemma exec_command_run (command : string) (argv : list string)
  (w : world St) (rc : Z) (out err : string) (st' : St) :
  Shlex.split command = inr argv ->
  run_cmd argv (executor_state w) = ((rc, out, err), st') ->
  _exec_command run_cmd command w
  = if Z.eqb rc 0 then (inr out, invoked w st' [argv])
    else (inl (CommandExecutionFailure argv rc err),
          {| executor_state := st';
             invocations := (invocations w ++ [argv])%list;
             error_log :=
               (error_log w ++ [ERROR_MSG_FORMAT command rc out err])%list |}).
Proof.
  intros T R. unfold _exec_command, bind, shlex_split, executor_run_cmd.
  rewrite T. unfold ret at 1. cbv beta iota. rewrite R.
  destruct (Z.eqb rc 0); reflexivity.
Qed.

(** C1, as the code has it.  For every command that tokenises: when the
    executor answers with exit code 0, [_exec_command] returns the stdout
    unchanged; when it answers with another exit code, nothing is returned
    and a [CommandExecutionFailure] is raised that carries the tokenised
    command, the exit code and the stderr.  The stdout and the command text
    are not in the failure: they go to the error log, with the exit code and
    the stderr, before the failure is raised. *)
Theorem exec_command_outcome (command : string) (argv : list string)
  (w : world St) (rc : Z) (out err : string) (st' : St) :
  Shlex.split command = inr argv ->
  run_cmd argv (executor_state w) = ((rc, out, err), st') ->
  (rc = 0%Z ->
   _exec_command run_cmd command w = (inr out, invoked w st' [argv]))
  /\ (rc <> 0%Z ->
      _exec_command run_cmd command w
      = (inl (CommandExecutionFailure argv rc err),
         {| executor_state := st';
            invocations := (invocations w ++ [argv])%list;
            error_log :=
              (error_log w
               ++ [("command -> " ++ command ++ nl
                    ++ "RC -> " ++ Py.str (Py.PyInt rc) ++ nl
                    ++ "OUT -> " ++ out ++ nl
                    ++ "ERROR -> " ++ err)%string])%list |})).
Proof.
  intros T R. rewrite (exec_command_run _ _ _ _ _ _ _ T R). split.
  - intros ->. reflexivity.
  - intros N. apply Z.eqb_neq in N. rewrite N. reflexivity.
Qed.

(** *** Listing connections *)

Lemma connections_command_argv :
  Shlex.split connections_command = inr ["nmcli"; "-t"; "connection"; "show"].
Proof. reflexivity. Qed.

(** The loop of [get_all_connections] over lines of four fields. *)
Lemma connections_loop_ok (lines : list string) :
  Forall (fun line => List.length (Py.split ":" line) = 4) lines ->
  forall (acc : list (Py.dict string)) (w : world St),
    for_each lines
      (fun line connections =>
         bind (getitem (Py.split ":" line) 0) (fun p0 =>
         bind (getitem (Py.split ":" line) 1) (fun p1 =>
         bind (getitem (Py.split ":" line) 2) (fun p2 =>
         bind (getitem (Py.split ":" line) 3) (fun p3 =>
         ret (connections
              ++ [[(ConnectionDetails.NAME, p0);
                   (ConnectionDetails.UUID, p1);
                   (ConnectionDetails.TYPE, p2);
                   (ConnectionDetails.DEVICE, p3)]])%list)))))
      acc w
    = (inr (acc ++ map connection_record lines)%list, w).
Proof.
  induction 1 as [|line lines L _ IH]; intros acc w; cbn [for_each map].
  - now rewrite app_nil_r.
  - unfold bind at 1. unfold connection_record at 1.
    destruct (Py.split ":" line) as [|a [|b [|c [|d [|e r]]]]];
      try discriminate L.
    cbn. rewrite IH, <- app_assoc. reflexivity.
Qed.

(** The loop stops with [IndexError] at the first line of fewer than four
    fields. *)
Lemma connections_loop_short (lines : list string) :
  Exists (fun line => List.length (Py.split ":" line) < 4) lines ->
  forall (acc : list (Py.dict string)) (w : world St),
    for_each lines
      (fun line connections =>
         bind (getitem (Py.split ":" line) 0) (fun p0 =>
         bind (getitem (Py.split ":" line) 1) (fun p1 =>
         bind (getitem (Py.split ":" line) 2) (fun p2 =>
         bind (getitem (Py.split ":" line) 3) (fun p3 =>
         ret (connections
              ++ [[(ConnectionDetails.NAME, p0);
                   (ConnectionDetails.UUID, p1);
                   (ConnectionDetails.TYPE, p2);
                   (ConnectionDetails.DEVICE, p3)]])%list)))))
      acc w
    = (inl IndexError, w).
Proof.
  induction lines as [|line lines IH]; intros E acc w.
  - inversion E.
  - cbn [for_each]. unfold bind at 1.
    destruct (Py.split ":" line) as [|a [|b [|c [|d r]]]] eqn:F;
      try reflexivity.
    cbn. apply IH. inversion E as [? ? S|? ? S]; subst; [|exact S].
    rewrite F in S. cbn in S. lia.
Qed.

(** C7.  When the listing call succeeds and every line of its output has
    exactly four fields between colons, [get_all_connections] returns one
    record per line, in the order of the lines, with the four fields under
    the keys [name], [uuid], [type] and [device]; the executor was invoked
    once.  The listing [lan:1234-uuid:ethernet:eth0], [wifi:5678-uuid:wifi:
    wlan0] gives the two records of the specification. *)
Theorem get_all_connections_records
  (w : world St) (out err : string) (st' : St) :
  run_cmd ["nmcli"; "-t"; "connection"; "show"] (executor_state w)
  = ((0%Z, out, err), st') ->
  Forall (fun line => List.length (Py.split ":" line) = 4) (Py.splitlines out) ->
  get_all_connections run_cmd w
  = (inr (map (fun line =>
                 [("name", nth 0 (Py.split ":" line) "");
                  ("uuid", nth 1 (Py.split ":" line) "");
                  ("type", nth 2 (Py.split ":" line) "");
                  ("device", nth 3 (Py.split ":" line) "")])
              (Py.splitlines out)),
     invoked w st' [["nmcli"; "-t"; "connection"; "show"]])
  /\ (out = "lan:1234-uuid:ethernet:eth0" ++ nl ++ "wifi:5678-uuid:wifi:wlan0"
      -> fst (get_all_connections run_cmd w)
         = inr [[("name", "lan"); ("uuid", "1234-uuid");
                 ("type", "ethernet"); ("device", "eth0")];
                [("name", "wifi"); ("uuid", "5678-uuid");
                 ("type", "wifi"); ("device", "wlan0")]]).
Proof.
  intros R L.
  assert (G : get_all_connections run_cmd w
              = (inr (map connection_record (Py.splitlines out)),
                 invoked w st' [["nmcli"; "-t"; "connection"; "show"]])).
  { unfold get_all_connections. unfold bind at 1.
    rewrite (exec_command_run _ _ _ _ _ _ _ connections_command_argv R).
    cbn [Z.eqb]. now rewrite connections_loop_ok. }
  split; [exact G|].
  intros ->. rewrite G. reflexivity.
Qed.

(** C9, as the code has it.  When the listing call succeeds and a line of
    its output has fewer than four fields between colons,
    [get_all_connections] raises [IndexError]: nothing is returned, no
    record is built for the line, empty or not. *)
Theorem get_all_connections_short_line
  (w : world St) (out err : string) (st' : St) :
  run_cmd ["nmcli"; "-t"; "connection"; "show"] (executor_state w)
  = ((0%Z, out, err), st') ->
  Exists (fun line => List.length (Py.split ":" line) < 4) (Py.splitlines out) ->
  get_all_connections run_cmd w
  = (inl IndexError, invoked w st' [["nmcli"; "-t"; "connection"; "show"]]).
Proof.
  intros R E. unfold get_all_connections. unfold bind at 1.
  rewrite (exec_command_run _ _ _ _ _ _ _ connections_command_argv R).
  cbn [Z.eqb]. now rewrite connections_loop_short.
Qed.

(** *** Listing devices *)

Lemma device_names_command_argv :
  Shlex.split device_names_command
  = inr ["nmcli"; "-g"; "GENERAL.DEVICE"; "device"; "show"].
Proof. reflexivity. Qed.

(** A reply the loop of [get_all_devices] can use: exit code 0 and at least
    three lines. *)
Local Notation usable reply :=
  (reply_rc reply = 0%Z
   /\ 3 <= List.length (Py.splitlines (reply_out reply))).

(** The loop of [get_all_devices]: one invocation per name. *)
Lemma devices_loop (names : list string) (argvs : list (list string)) :
  Forall2 (fun name argv =>
             Shlex.split (device_details_command name) = inr argv)
          names argvs ->
  forall (acc : list (Py.dict string)) (w : world St),
    Forall (fun reply => usable reply)
           (fst (run_all run_cmd argvs (executor_state w))) ->
    for_each names
      (fun name devices =>
         bind (_exec_command run_cmd (device_details_command name))
           (fun out =>
         bind (getitem (Py.splitlines out) 0) (fun p0 =>
         bind (getitem (Py.splitlines out) 1) (fun p1 =>
         bind (getitem (Py.splitlines out) 2) (fun p2 =>
         ret (devices
              ++ [[(DeviceDetails.NAME, name);
                   (DeviceDetails.TYPE, p0);
                   (DeviceDetails.MAC, p1);
                   (DeviceDetails.MTU, p2)]])%list)))))
      acc w
    = (inr (acc
            ++ map device_record
                 (combine names
                    (fst (run_all run_cmd argvs (executor_state w)))))%list,
       invoked w (snd (run_all run_cmd argvs (executor_state w))) argvs).
Proof.
  induction 1 as [|name argv names argvs T _ IH]; intros acc w U.
  - cbn. unfold ret, invoked. rewrite !app_nil_r. now destruct w.
  - cbn [for_each run_all] in *.
    destruct (run_cmd argv (executor_state w)) as [[[rc out] err] st1] eqn:R.
    specialize (IH (acc ++ [device_record (name, (rc, out, err))])%list
                   (invoked w st1 [argv])).
    cbn [invoked executor_state] in IH.
    destruct (run_all run_cmd argvs st1) as [replies st2] eqn:A.
    cbn [fst snd] in *.
    inversion U as [|? ? [U0 U3] U']; subst.
    cbn [reply_rc reply_out fst snd] in U0, U3. subst rc.
    erewrite bind_inr.
    + rewrite (IH U'). cbn [combine map]. unfold invoked.
      cbn [invocations error_log]. now rewrite <- !app_assoc.
    + erewrite bind_inr
        by (rewrite (exec_command_run _ _ _ _ _ _ _ T R); reflexivity).
      unfold device_record. cbn [reply_out fst snd].
      destruct (Py.splitlines out) as [|a [|b [|c r]]];
        try (cbn in U3; lia).
      reflexivity.
Qed.

(** Inside a word, plain characters are appended to the token. *)
Lemma read_plain_chars (s rest token : string) (quoted : bool) :
  Shlex.plain_chars s = true ->
  Shlex.read (s ++ rest) Shlex.InWord token quoted
  = Shlex.read rest Shlex.InWord (token ++ s) quoted.
Proof.
  revert token; induction s as [|c s IH]; intros token P.
  - cbn. now rewrite append_nil_r.
  - cbn [Shlex.plain_chars] in P. apply andb_prop in P. destruct P as [C P].
    apply negb_true_iff in C. apply orb_false_iff in C.
    destruct C as [C E]. apply orb_false_iff in C. destruct C as [W Q].
    cbn [String.append Shlex.read]. rewrite W, Q, E.
    rewrite (IH _ P), append_assoc. reflexivity.
Qed.

(** A plain word followed by a space is a token. *)
Lemma read_word_space (word rest : string) :
  Shlex.plain word = true ->
  Shlex.read (word ++ String " " rest) Shlex.InSpace "" false
  = Shlex.emit word (Shlex.read rest Shlex.InSpace "" false).
Proof.
  intros P. unfold Shlex.plain in P. apply andb_prop in P.
  destruct P as [N P]. destruct word as [|c s]; [discriminate N|].
  cbn [Shlex.plain_chars] in P. apply andb_prop in P. destruct P as [C P].
  apply negb_true_iff in C. apply orb_false_iff in C.
  destruct C as [C E]. apply orb_false_iff in C. destruct C as [W Q].
  cbn [String.append Shlex.read]. rewrite W, Q, E.
  rewrite (read_plain_chars s _ _ _ P).
  reflexivity.
Qed.

(** A plain word at the end of the input is the last token. *)
Lemma read_last_word (word : string) :
  Shlex.plain word = true ->
  Shlex.read word Shlex.InSpace "" false = inr [word].
Proof.
  intros P. unfold Shlex.plain in P. apply andb_prop in P.
  destruct P as [N P]. destruct word as [|c s]; [discriminate N|].
  cbn [Shlex.plain_chars] in P. apply andb_prop in P. destruct P as [C P].
  apply negb_true_iff in C. apply orb_false_iff in C.
  destruct C as [C E]. apply orb_false_iff in C. destruct C as [W Q].
  cbn [Shlex.read]. rewrite W, Q, E.
  rewrite <- (append_nil_r s) at 1.
  rewrite (read_plain_chars s "" _ _ P). reflexivity.
Qed.

(** The detail command of a device with a plain name tokenises, the name
    being its last word. *)
Lemma device_details_command_argv (name : string) :
  Shlex.plain name = true ->
  Shlex.split (device_details_command name)
  = inr ["nmcli"; "-e"; "no"; "-g";
         "GENERAL.TYPE,GENERAL.HWADDR,GENERAL.MTU"; "device"; "show"; name].
Proof.
  intros P. unfold Shlex.split.
  change (device_details_command name)
    with ("nmcli" ++ String " " ("-e" ++ String " " ("no" ++ String " "
          ("-g" ++ String " "
          ("GENERAL.TYPE,GENERAL.HWADDR,GENERAL.MTU" ++ String " "
          ("device" ++ String " " ("show" ++ String " " name))))))).
  rewrite !read_word_space by reflexivity.
  rewrite (read_last_word name P). reflexivity.
Qed.


End FacadeFacts.

(** ** The propositions at concrete inputs *)

Section Instances.
Import Py Builder Words Commands.

(** C1: the failure is the same after two runs whose stdout differs, so the
    stdout is not in the failure; and the same again for a command text
    with other spacing. *)
Lemma failure_does_not_carry_stdout :
  reply_out (fst (Demo.failing_executor ["nmcli"; "connection"; "show"] 0))
  = "attempt 0"
  /\ reply_out (fst (Demo.failing_executor ["nmcli"; "connection"; "show"] 1))
     = "attempt 1"
  /\ fst (_exec_command Demo.failing_executor "nmcli connection show"
            (World 0 [] []))
     = inl (CommandExecutionFailure ["nmcli"; "connection"; "show"] 1 "boom")
  /\ fst (_exec_command Demo.failing_executor "nmcli connection show"
            (World 1 [] []))
     = inl (CommandExecutionFailure ["nmcli"; "connection"; "show"] 1 "boom")
  /\ fst (_exec_command Demo.failing_executor "nmcli  connection   show"
            (World 0 [] []))
     = inl (CommandExecutionFailure ["nmcli"; "connection"; "show"] 1 "boom")
  /\ ~ (exists stdout_of : exn -> string,
           stdout_of
             (CommandExecutionFailure ["nmcli"; "connection"; "show"] 1 "boom")
           = "attempt 0"
           /\ stdout_of
                (CommandExecutionFailure ["nmcli"; "connection"; "show"] 1
                   "boom")
              = "attempt 1").
Proof.
  repeat split; try reflexivity.
  intros (f & A & B). rewrite A in B. discriminate B.
Qed.

Lemma exec_command_outcome_witness :
  _exec_command Demo.echo_executor "nmcli connection show" (World tt [] [])
  = (inr "nmcli connection show",
     invoked (World tt [] []) tt [["nmcli"; "connection"; "show"]])
  /\ _exec_command Demo.failing_executor "nmcli connection show"
       (World 0 [] [])
     = (inl (CommandExecutionFailure ["nmcli"; "connection"; "show"] 1 "boom"),
        {| executor_state := 1;
           invocations := [["nmcli"; "connection"; "show"]];
           error_log :=
             [("command -> nmcli connection show" ++ nl
               ++ "RC -> 1" ++ nl
               ++ "OUT -> attempt 0" ++ nl
               ++ "ERROR -> boom")%string] |}).
Proof.
  split.
  - apply (proj1 (exec_command_outcome unit Demo.echo_executor
                    "nmcli connection show" ["nmcli"; "connection"; "show"]
                    (World tt [] []) 0 "nmcli connection show" "" tt
                    eq_refl eq_refl)).
    reflexivity.
  - apply (proj2 (exec_command_outcome nat Demo.failing_executor
                    "nmcli connection show" ["nmcli"; "connection"; "show"]
                    (World 0 [] []) 1 "attempt 0" "boom" 1
                    eq_refl eq_refl)).
    discriminate.
Defined.

(** C9: a line of three fields makes the listing raise. *)
Lemma truncated_listing_raises :
  get_all_connections Demo.truncated_executor (World tt [] [])
  = (inl IndexError, World tt [["nmcli"; "-t"; "connection"; "show"]] [])
  /\ ~ (exists records,
           fst (get_all_connections Demo.truncated_executor (World tt [] []))
           = inr records).
Proof.
  split; [reflexivity|]. intros (records & E). discriminate E.
Qed.

Lemma get_all_connections_short_line_witness :
  Exists (fun line => List.length (split ":" line) < 4)
         (splitlines "lan:1234-uuid:ethernet")
  /\ get_all_connections Demo.truncated_executor (World tt [] [])
     = (inl IndexError,
        invoked (World tt [] []) tt [["nmcli"; "-t"; "connection"; "show"]]).
Proof.
  assert (E : Exists (fun line => List.length (split ":" line) < 4)
                     (splitlines "lan:1234-uuid:ethernet")).
  { apply Exists_cons_hd. cbv. lia. }
  split; [exact E|].
  exact (get_all_connections_short_line unit Demo.truncated_executor
           (World tt [] []) "lan:1234-uuid:ethernet" "" tt eq_refl E).
Defined.

Lemma get_all_connections_records_witness :
  fst (get_all_connections Demo.listing_executor (World tt [] []))
  = inr [[("name", "lan"); ("uuid", "1234-uuid");
          ("type", "ethernet"); ("device", "eth0")];
         [("name", "wifi"); ("uuid", "5678-uuid");
          ("type", "wifi"); ("device", "wlan0")]].
Proof.
  refine (proj2 (get_all_connections_records unit Demo.listing_executor
                   (World tt [] []) Demo.listing "" tt eq_refl _) eq_refl).
  vm_compute. repeat constructor.
Defined.

(** Checks a list of concrete strings for a word, one string at a time. *)
Ltac no_such_word :=
  apply Forall_forall; intros ?s ?Hs; cbn in Hs;
  repeat (destruct Hs as [<-|Hs]; [cbv; intuition discriminate|]);
  contradiction.


Lemma explicit_false_is_rendered_witness :
  tokens (_nmcli_cmd_builder "connection" "add" "eth-test"
            (PyStr "ethernet") (PyStr "eth0") (PyBool false) PyNone
            PyNone PyNone PyNone PyNone PyNone PyNone None)
  = ["nmcli"; "connection"; "add"; "type"; "ethernet"; "con-name";
     "eth-test"; "ifname"; "eth0"; "autoconnect"; "no"]
  /\ ~ In "save"
         (tokens (_nmcli_cmd_builder "connection" "add" "eth-test"
                    (PyStr "ethernet") (PyStr "eth0") (PyBool false) PyNone
                    PyNone PyNone PyNone PyNone PyNone PyNone None))
  /\ ~ In "autoconnect"
         (tokens (_nmcli_cmd_builder "connection" "add" "eth-test"
                    (PyStr "ethernet") (PyStr "eth0") PyNone (PyBool false)
                    PyNone PyNone PyNone PyNone PyNone PyNone None)).
Proof.
  destruct (explicit_false_is_rendered "connection" "eth-test"
              (PyStr "ethernet") (PyStr "eth0")
              PyNone PyNone PyNone PyNone PyNone PyNone None)
    as (A & _ & C & D).
  split; [exact (A PyNone)|].
  split; [apply (D (PyBool false)) | apply (C (PyBool false))];
    no_such_word.
Defined.

Lemma flag_is_yes_only_for_True_witness :
  tokens (_nmcli_cmd_builder "connection" "add" "eth-test"
            (PyStr "ethernet") (PyStr "eth0") (PyInt 1) (PyStr "yes")
            PyNone PyNone PyNone PyNone PyNone PyNone None)
  = ["nmcli"; "connection"; "add"; "type"; "ethernet"; "con-name";
     "eth-test"; "ifname"; "eth0"; "autoconnect"; "no"; "save"; "no"].
Proof.
  destruct (flag_is_yes_only_for_True "connection" "eth-test"
              (PyStr "ethernet") (PyStr "eth0")
              PyNone PyNone PyNone PyNone PyNone PyNone None)
    as (_ & A & _ & _ & _).
  apply (A (PyInt 1) (PyStr "yes")); discriminate.
Defined.

End Instances.

(** * Further properties of the operations *)

(** ** From the command string to the argument vector *)

Section Tokenising.
Import Py Builder Words Commands.

Ltac strings :=
  repeat first [ rewrite append_assoc
               | progress cbn [String.append spaced] ];
  repeat rewrite append_nil_r;
  try reflexivity.

(** Plain words joined by single spaces are tokenised into themselves. *)
Lemma read_plain_words (l : list string) :
  Forall (fun w => Shlex.plain w = true) l ->
  forall h, Shlex.plain h = true ->
    Shlex.split (h ++ spaced l) = inr (h :: l).
Proof.
  unfold Shlex.split.
  induction 1 as [|w l P _ IH]; intros h H; cbn [spaced].
  - rewrite append_nil_r. now apply read_last_word.
  - change (" " ++ w ++ spaced l) with (String " " (w ++ spaced l)).
    rewrite (read_word_space _ _ H), (IH w P). reflexivity.
Qed.

Lemma flag_words_plain (key : string) (v : pyval) :
  Shlex.plain key = true ->
  Forall (fun w => Shlex.plain w = true) (flag_words key v).
Proof.
  intros K. destruct v as [|[|]|z|x]; cbn [flag_words];
    repeat (apply Forall_cons; [first [exact K | reflexivity]|]);
    apply Forall_nil.
Qed.

(** When the strings of the caller are plain, so are all words of an ADD
    command. *)
Lemma add_words_plain
  (object_type name : string) (con_type ifname auto_connect save : pyval)
  (ipv4_method ipv4_addr ipv4_gw ipv6_method ipv6_addr ipv6_gw : pyval)
  (type_options : option (dict pyval)) :
  Forall (fun w => Shlex.plain w = true)
    (supplied object_type name con_type ifname
       ipv4_method ipv4_addr ipv4_gw ipv6_method ipv6_addr ipv6_gw
       type_options) ->
  Forall (fun w => Shlex.plain w = true)
    (add_words object_type name con_type ifname auto_connect save
       ipv4_method ipv4_addr ipv4_gw ipv6_method ipv6_addr ipv6_gw
       type_options).
Proof.
  unfold supplied, add_words, common_words. intros S.
  apply Forall_app in S. destruct S as [S0 S].
  apply Forall_app in S. destruct S as [St Si].
  inversion S0 as [|? ? Po S1]; subst. inversion S1 as [|? ? Pc S2]; subst.
  inversion S2 as [|? ? Pn S3]; subst. inversion S3 as [|? ? Pi _]; subst.
  repeat first [ apply Forall_app; split | apply Forall_cons
               | apply Forall_nil | assumption | reflexivity
               | apply flag_words_plain ].
  rewrite Forall_forall in Si |- *. intros w I.
  unfold ip_words in I. apply in_flat_map in I. destruct I as (kv & I & K).
  pose proof (ip_pairs_keys_values _ _ _ _ _ _ _ I) as (Kk & Kv & _).
  unfold pair_words in K. cbn [In] in K. destruct K as [K|[K|[]]]; subst w.
  - cbn [In] in Kk.
    repeat (destruct Kk as [Kk|Kk]; [rewrite <- Kk; reflexivity|]).
    contradiction.
  - apply Si. now apply in_map.
Qed.

(** X1.  When every string of the caller is a plain word (not empty, no
    whitespace, quote or backslash), tokenising the command the builder
    makes for an ADD gives back its words: [nmcli], the object type, [add],
    the common options, the type options and the IP options, each value as
    one argument. *)
Theorem add_command_argv
  (object_type name : string) (con_type ifname auto_connect save : pyval)
  (ipv4_method ipv4_addr ipv4_gw ipv6_method ipv6_addr ipv6_gw : pyval)
  (type_options : option (dict pyval)) :
  Forall (fun w => Shlex.plain w = true)
    (supplied object_type name con_type ifname
       ipv4_method ipv4_addr ipv4_gw ipv6_method ipv6_addr ipv6_gw
       type_options) ->
  Shlex.split
    (_nmcli_cmd_builder object_type Operations.ADD name
       con_type ifname auto_connect save
       ipv4_method ipv4_addr ipv4_gw ipv6_method ipv6_addr ipv6_gw
       type_options)
  = inr ("nmcli"
         :: object_type :: "add"
         :: (common_words con_type name ifname auto_connect save
             ++ type_words type_options
             ++ ip_words ipv4_method ipv6_method ipv4_addr ipv4_gw
                         ipv6_addr ipv6_gw))%list.
Proof.
  intros S. rewrite builder_add_spaced.
  rewrite read_plain_words; [reflexivity| |reflexivity].
  now apply add_words_plain.
Qed.

End Tokenising.

(** ** Commands other than ADD *)

Section OtherCommands.
Import Py Builder Words Commands.

Ltac strings :=
  repeat first [ rewrite append_assoc
               | progress cbn [String.append spaced] ];
  repeat rewrite append_nil_r;
  try reflexivity.

(** The type options, as the builder appends them. *)
Lemma type_options_spaced (type_options : option (dict pyval))
  (command : string) :
  match type_options with
  | Some ((_ :: _) as d) => add_type_options command d
  | _ => command
  end = command ++ spaced (type_words type_options).
Proof.
  destruct type_options as [[|kv d]|]; cbn [type_words flat_map spaced].
  - now rewrite append_nil_r.
  - apply add_type_options_spaced.
  - now rewrite append_nil_r.
Qed.

(** The command of an operation other than [add], word by word. *)
Lemma builder_other_spaced
  (object_type operation name : string)
  (con_type ifname auto_connect save : pyval)
  (ipv4_method ipv4_addr ipv4_gw ipv6_method ipv6_addr ipv6_gw : pyval)
  (type_options : option (dict pyval)) :
  operation <> "add" ->
  _nmcli_cmd_builder object_type operation name
    con_type ifname auto_connect save
    ipv4_method ipv4_addr ipv4_gw ipv6_method ipv6_addr ipv6_gw type_options
  = "nmcli"
    ++ spaced ((object_type :: operation
                :: (if String.eqb operation "delete"
                       || String.eqb operation "modify"
                    then [name] else []))
               ++ type_words type_options
               ++ ip_words ipv4_method ipv6_method ipv4_addr ipv4_gw
                           ipv6_addr ipv6_gw).
Proof.
  intros N. apply String.eqb_neq in N.
  unfold _nmcli_cmd_builder.
  change Operations.DELETE with "delete".
  change Operations.MODIFY with "modify".
  change Operations.ADD with "add".
  rewrite N, type_options_spaced, ip_options_spaced.
  destruct (String.eqb operation "delete" || String.eqb operation "modify");
    rewrite !spaced_app; strings.
Qed.

(** X2.  Unless the operation is [add], the builder does not look at the
    connection type, the interface name, [auto_connect] or [save]: whatever
    the caller passes for them, the command is the same.  It is [nmcli], the
    object type, the operation, the name when the operation is [delete] or
    [modify] (and for no other operation), then the type options and the IP
    options. *)
Theorem builder_without_common_options
  (object_type operation name : string)
  (con_type ifname auto_connect save : pyval)
  (ipv4_method ipv4_addr ipv4_gw ipv6_method ipv6_addr ipv6_gw : pyval)
  (type_options : option (dict pyval)) :
  operation <> "add" ->
  _nmcli_cmd_builder object_type operation name
    con_type ifname auto_connect save
    ipv4_method ipv4_addr ipv4_gw ipv6_method ipv6_addr ipv6_gw type_options
  = "nmcli"
    ++ spaced ((object_type :: operation
                :: (if String.eqb operation "delete"
                       || String.eqb operation "modify"
                    then [name] else []))
               ++ type_words type_options
               ++ ip_words ipv4_method ipv6_method ipv4_addr ipv4_gw
                           ipv6_addr ipv6_gw).
Proof.
  apply builder_other_spaced.
Qed.

(** X6.  The commands of the five add operations, word by word.  The
    connection type is fixed by the operation ([add_slave] takes it from the
    caller).  [add_ethernet_connection] appends [mac] then [mtu], [add_bond]
    appends [mode] then [miimon], each only when its value passes the truth
    test.  [add_vlan] uses the parent device as the interface name and
    always appends [dev] and [id], then [mtu] under the same test.
    [add_slave] always appends [master] and has no IP options; [add_dummy]
    has no type options. *)
Theorem add_operations_words
  (con_name ifname : string) (auto_connect save : pyval)
  (ipv4_method ipv4_addr ipv4_gw ipv6_method ipv6_addr ipv6_gw : pyval) :
  let ip :=
    ip_words ipv4_method ipv6_method ipv4_addr ipv4_gw ipv6_addr ipv6_gw in
  let common con_type ifname :=
    ("connection" :: "add"
     :: common_words (PyStr con_type) con_name (PyStr ifname)
          auto_connect save)%list in
  (forall mac mtu,
      add_ethernet_connection_command con_name ifname auto_connect save
        mac mtu ipv4_method ipv4_addr ipv4_gw ipv6_method ipv6_addr ipv6_gw
      = "nmcli"
        ++ spaced (common "ethernet" ifname
                   ++ flat_map pair_words (kept [("mac", mac); ("mtu", mtu)])
                   ++ ip))
  /\ (forall mode miimon,
         add_bond_command con_name ifname mode miimon auto_connect save
           ipv4_method ipv4_addr ipv4_gw ipv6_method ipv6_addr ipv6_gw
         = "nmcli"
           ++ spaced (common "bond" ifname
                      ++ flat_map pair_words
                           (kept [("mode", mode); ("miimon", miimon)])
                      ++ ip))
  /\ (forall dev vlan_id mtu,
         add_vlan_command con_name dev vlan_id mtu auto_connect save
           ipv4_method ipv4_addr ipv4_gw ipv6_method ipv6_addr ipv6_gw
         = "nmcli"
           ++ spaced (common "vlan" dev
                      ++ ["dev"; dev; "id"; str vlan_id]
                      ++ flat_map pair_words (kept [("mtu", mtu)])
                      ++ ip))
  /\ (forall slave_type master,
         add_slave_command con_name slave_type ifname master
           auto_connect save
         = "nmcli"
           ++ spaced (common slave_type ifname ++ ["master"; master]))
  /\ add_dummy_command con_name ifname auto_connect save
       ipv4_method ipv4_addr ipv4_gw ipv6_method ipv6_addr ipv6_gw
     = "nmcli" ++ spaced (common "dummy" ifname ++ ip).
Proof.
  intros ip common. unfold ip, common.
  split; [|split; [|split; [|split]]].
  - intros mac mtu. unfold add_ethernet_connection_command.
    rewrite builder_add_spaced. unfold add_words, kept, provided.
    cbn [filter snd].
    destruct (truthy mac), (truthy mtu); reflexivity.
  - intros mode miimon. unfold add_bond_command.
    rewrite builder_add_spaced. unfold add_words, kept, provided.
    cbn [filter snd].
    destruct (truthy mode), (truthy miimon); reflexivity.
  - intros dev vlan_id mtu. unfold add_vlan_command.
    rewrite builder_add_spaced. unfold add_words, kept, provided.
    cbn [filter snd].
    destruct (truthy mtu); reflexivity.
  - intros slave_type master. unfold add_slave_command.
    rewrite builder_add_spaced. unfold add_words.
    change (ip_words PyNone PyNone PyNone PyNone PyNone PyNone) with
      (@nil string).
    now rewrite app_nil_r.
  - unfold add_dummy_command. rewrite builder_add_spaced. reflexivity.
Qed.

End OtherCommands.

(** ** A quote that is not closed *)

Section Quoting.
Import Py Words.

(** Inside single quotes, a text without a single quote runs to the end of
    the input, where the lexer gives up. *)
Lemma read_unclosed (s token : string) (quoted : bool) :
  lacks "'" s = true ->
  Shlex.read s (Shlex.InQuote "'") token quoted
  = inl "No closing quotation".
Proof.
  revert token quoted; induction s as [|c s IH]; intros token quoted L.
  - reflexivity.
  - cbn [lacks] in L. apply andb_prop in L. destruct L as [C L].
    apply negb_true_iff in C. cbn [Shlex.read]. rewrite C.
    change (Shlex.is_escapedquote "'") with false.
    rewrite andb_false_r. now apply IH.
Qed.

(** A word with one single quote in it cannot be tokenised. *)
Lemma read_apostrophe_word (a s : string) :
  Shlex.plain_chars a = true -> lacks "'" s = true ->
  Shlex.read (a ++ String "'" s) Shlex.InSpace "" false
  = inl "No closing quotation".
Proof.
  intros A L. destruct a as [|c a].
  - cbn [String.append Shlex.read].
    change (Shlex.is_whitespace "'") with false.
    change (Shlex.is_escape "'") with false.
    change (Shlex.is_quote "'") with true.
    cbv iota. now apply read_unclosed.
  - cbn [Shlex.plain_chars] in A. apply andb_prop in A. destruct A as [C A].
    apply negb_true_iff in C. apply orb_false_iff in C.
    destruct C as [C E]. apply orb_false_iff in C. destruct C as [W Q].
    cbn [String.append Shlex.read]. rewrite W, Q, E.
    rewrite (read_plain_chars a _ _ _ A).
    cbn [Shlex.read].
    change (Shlex.is_whitespace "'") with false.
    change (Shlex.is_quote "'") with true.
    cbv iota. now apply read_unclosed.
Qed.

(** Plain words followed by a word with one single quote. *)
Lemma split_apostrophe_word (l : list string) (a s : string) :
  Forall (fun w => Shlex.plain w = true) l ->
  Shlex.plain_chars a = true -> lacks "'" s = true ->
  forall h, Shlex.plain h = true ->
    Shlex.split (h ++ spaced (l ++ [a ++ String "'" s]))
    = inl "No closing quotation".
Proof.
  intros P A L. unfold Shlex.split.
  induction P as [|w l Pw _ IH]; intros h H; cbn [app spaced].
  - change (" " ++ (a ++ String "'" s) ++ "")
      with (String " " ((a ++ String "'" s) ++ "")).
    rewrite (read_word_space _ _ H), append_nil_r.
    now rewrite read_apostrophe_word.
  - change (" " ++ w ++ spaced (l ++ [a ++ String "'" s]))
      with (String " " (w ++ spaced (l ++ [a ++ String "'" s]))).
    rewrite (read_word_space _ _ H), (IH w Pw). reflexivity.
Qed.

End Quoting.

(** ** Running the operations *)

Section RunningOperations.
Import Py Builder Words Commands.

Variable St : Type.
Variable run_cmd : list string -> St -> (Z * string * string) * St.

(** An operation that runs one command and returns nothing: the executor
    is invoked once; on exit code 0 the stdout is dropped, on another exit
    code the failure is logged and raised. *)
Lemma command_run (command : string) (argv : list string)
  (w : world St) (rc : Z) (out err : string) (st' : St) :
  Shlex.split command = inr argv ->
  run_cmd argv (executor_state w) = ((rc, out, err), st') ->
  bind (_exec_command run_cmd command) (fun _ => ret tt) w
  = if Z.eqb rc 0 then (inr tt, invoked w st' [argv])
    else (inl (CommandExecutionFailure argv rc err),
          failed w st' [argv] (ERROR_MSG_FORMAT command rc out err)).
Proof.
  intros T R. unfold bind at 1.
  rewrite (exec_command_run _ _ _ _ _ _ _ _ _ T R).
  destruct (Z.eqb rc 0); reflexivity.
Qed.

(** A command that does not tokenise is not run: [ValueError] is raised,
    the executor is not invoked and nothing is logged. *)
Lemma command_not_run (command message : string) (w : world St) :
  Shlex.split command = inl message ->
  bind (_exec_command run_cmd command) (fun _ => ret tt) w
  = (inl (ValueError message), w).
Proof.
  intros T. unfold bind at 1. unfold _exec_command, bind, shlex_split.
  rewrite T. reflexivity.
Qed.

(** X3.  [delete_connection] does not quote the name.  A name made of the
    plain words [a], [l1], ..., [ln] separated by single spaces reaches the
    executor as [n + 1] arguments after [nmcli connection delete], in one
    invocation.  On exit code 0 nothing is returned; on another exit code
    the command, exit code, stdout and stderr are logged and a
    [CommandExecutionFailure] with the argument vector is raised. *)
Theorem delete_connection_run (a : string) (l : list string)
  (w : world St) (rc : Z) (out err : string) (st' : St) :
  Shlex.plain a = true ->
  Forall (fun x => Shlex.plain x = true) l ->
  run_cmd ("nmcli" :: "connection" :: "delete" :: a :: l) (executor_state w)
  = ((rc, out, err), st') ->
  delete_connection run_cmd (a ++ spaced l) w
  = if Z.eqb rc 0
    then (inr tt,
          invoked w st' ["nmcli" :: "connection" :: "delete" :: a :: l])
    else (inl (CommandExecutionFailure
                 ("nmcli" :: "connection" :: "delete" :: a :: l) rc err),
          failed w st' ["nmcli" :: "connection" :: "delete" :: a :: l]
            (ERROR_MSG_FORMAT ("nmcli connection delete " ++ a ++ spaced l)
               rc out err)).
Proof.
  intros A L R. unfold delete_connection.
  assert (C : delete_connection_command (a ++ spaced l)
              = "nmcli connection delete " ++ a ++ spaced l).
  { unfold delete_connection_command.
    rewrite builder_other_spaced by discriminate.
    cbn. now rewrite append_nil_r. }
  assert (T : Shlex.split (delete_connection_command (a ++ spaced l))
              = inr ("nmcli" :: "connection" :: "delete" :: a :: l)).
  { rewrite C.
    change ("nmcli connection delete " ++ a ++ spaced l)
      with ("nmcli" ++ spaced ("connection" :: "delete" :: a :: l)).
    apply read_plain_words; [|reflexivity].
    repeat (apply Forall_cons; [first [reflexivity | exact A]|]). exact L. }
  rewrite (command_run _ _ _ _ _ _ _ T R), C. reflexivity.
Qed.

(** X4.  A connection name with one single quote in it (plain characters,
    a quote, then anything without a quote) cannot be tokenised:
    [delete_connection] raises [ValueError], the executor is not invoked and
    nothing is logged. *)
Theorem delete_connection_apostrophe (a s : string) (w : world St) :
  Shlex.plain_chars a = true -> lacks "'" s = true ->
  delete_connection run_cmd (a ++ "'" ++ s) w
  = (inl (ValueError "No closing quotation"), w).
Proof.
  intros A L. unfold delete_connection.
  apply command_not_run. unfold delete_connection_command.
  rewrite builder_other_spaced by discriminate.
  assert (P : Forall (fun x => Shlex.plain x = true)
                     ["connection"; "delete"]).
  { repeat (apply Forall_cons; [reflexivity|]). apply Forall_nil. }
  exact (split_apostrophe_word _ a s P A L "nmcli" eq_refl).
Qed.

(** X5.  [set_connection_state] passes the state on as it is given, checked
    against nothing: for a plain state and a plain connection name the
    executor is invoked once with [nmcli connection <state> <connection>];
    exit code 0 returns nothing, another exit code logs and raises the
    failure. *)
Theorem set_connection_state_run (connection state : string)
  (w : world St) (rc : Z) (out err : string) (st' : St) :
  Shlex.plain connection = true -> Shlex.plain state = true ->
  run_cmd ["nmcli"; "connection"; state; connection] (executor_state w)
  = ((rc, out, err), st') ->
  set_connection_state run_cmd connection state w
  = if Z.eqb rc 0
    then (inr tt, invoked w st' [["nmcli"; "connection"; state; connection]])
    else (inl (CommandExecutionFailure
                 ["nmcli"; "connection"; state; connection] rc err),
          failed w st' [["nmcli"; "connection"; state; connection]]
            (ERROR_MSG_FORMAT
               ("nmcli connection " ++ state ++ " " ++ connection)
               rc out err)).
Proof.
  intros C S R. unfold set_connection_state.
  assert (T : Shlex.split
                ("nmcli " ++ Objects.CONNECTION ++ " " ++ state ++ " "
                 ++ connection)
              = inr ["nmcli"; "connection"; state; connection]).
  { change ("nmcli " ++ Objects.CONNECTION ++ " " ++ state ++ " "
            ++ connection)
      with ("nmcli" ++ String " " ("connection" ++ String " "
             (state ++ String " " connection))).
    unfold Shlex.split.
    rewrite !read_word_space by first [reflexivity | exact S].
    now rewrite (read_last_word _ C). }
  exact (command_run _ _ _ _ _ _ _ T R).
Qed.

(** X7.  [modify_connection] and [modify_device] put the properties after
    the name in the order of the mapping, each as its key and its value, the
    key as it is given (a [+] or [-] in front included).  With a plain name
    and plain keys and values the executor is invoked once with [nmcli],
    the object, [modify], the name and these words; an empty mapping adds
    nothing.  Exit code 0 returns nothing, another exit code logs and raises
    the failure. *)
Theorem modify_run (name : string) (properties : dict pyval)
  (w : world St) (rc : Z) (out err : string) (st' : St) :
  Shlex.plain name = true ->
  Forall (fun x => Shlex.plain x = true) (flat_map pair_words properties) ->
  let argv object :=
    ("nmcli" :: object :: "modify" :: name
     :: flat_map pair_words properties) in
  let outcome object :=
    if Z.eqb rc 0 then (inr tt, invoked w st' [argv object])
    else (inl (CommandExecutionFailure (argv object) rc err),
          failed w st' [argv object]
            (ERROR_MSG_FORMAT
               ("nmcli" ++ spaced (object :: "modify" :: name
                                   :: flat_map pair_words properties))
               rc out err)) in
  (run_cmd (argv "connection") (executor_state w) = ((rc, out, err), st') ->
   modify_connection run_cmd name properties w = outcome "connection")
  /\ (run_cmd (argv "device") (executor_state w) = ((rc, out, err), st') ->
      modify_device run_cmd name properties w = outcome "device").
Proof.
  intros N P argv outcome.
  assert (C : forall object,
             _nmcli_cmd_builder object Operations.MODIFY name
               PyNone PyNone PyNone PyNone
               PyNone PyNone PyNone PyNone PyNone PyNone (Some properties)
             = "nmcli" ++ spaced (object :: "modify" :: name
                                  :: flat_map pair_words properties)).
  { intros object. rewrite builder_other_spaced by discriminate.
    cbn. now rewrite app_nil_r. }
  assert (T : forall object, Shlex.plain object = true ->
             Shlex.split
               ("nmcli" ++ spaced (object :: "modify" :: name
                                   :: flat_map pair_words properties))
             = inr (argv object)).
  { intros object O. apply read_plain_words; [|reflexivity].
    repeat (apply Forall_cons; [first [exact O | exact N | reflexivity]|]).
    exact P. }
  split; intros R.
  - unfold modify_connection, modify_connection_command. rewrite C.
    exact (command_run _ _ _ _ _ _ _ (T "connection" eq_refl) R).
  - unfold modify_device, modify_device_command. rewrite C.
    exact (command_run _ _ _ _ _ _ _ (T "device" eq_refl) R).
Qed.

(** X8.  [add_slave] with plain names invokes the executor once, with the
    common options for the given slave type followed by [master] and the
    master's name; the two flags appear when they are not [None]. *)
Theorem add_slave_run (con_name slave_type ifname master : string)
  (auto_connect save : pyval)
  (w : world St) (rc : Z) (out err : string) (st' : St) :
  Forall (fun x => Shlex.plain x = true)
         [con_name; slave_type; ifname; master] ->
  let argv :=
    (["nmcli"; "connection"; "add"; "type"; slave_type;
      "con-name"; con_name; "ifname"; ifname]
     ++ flag_words "autoconnect" auto_connect
     ++ flag_words "save" save
     ++ ["master"; master])%list in
  run_cmd argv (executor_state w) = ((rc, out, err), st') ->
  add_slave run_cmd con_name slave_type ifname master auto_connect save w
  = if Z.eqb rc 0 then (inr tt, invoked w st' [argv])
    else (inl (CommandExecutionFailure argv rc err),
          failed w st' [argv]
            (ERROR_MSG_FORMAT
               (add_slave_command con_name slave_type ifname master
                  auto_connect save)
               rc out err)).
Proof.
  intros P argv R. unfold add_slave.
  inversion P as [|? ? Pc P1]; subst. inversion P1 as [|? ? Ps P2]; subst.
  inversion P2 as [|? ? Pi P3]; subst. inversion P3 as [|? ? Pm _]; subst.
  apply command_run; [|exact R].
  unfold add_slave_command. rewrite builder_add_spaced.
  rewrite read_plain_words; [| |reflexivity].
  - unfold argv, add_words, common_words.
    change (ip_words PyNone PyNone PyNone PyNone PyNone PyNone) with
      (@nil string).
    cbn [dict_set type_words flat_map pair_words fst snd str app].
    now rewrite <- !app_assoc.
  - apply add_words_plain. unfold supplied.
    cbn [dict_set type_words flat_map pair_words fst snd str app map
         filter provided truthy].
    repeat (apply Forall_cons; [first [assumption | reflexivity]|]).
    apply Forall_nil.
Qed.

End RunningOperations.

(** ** Listings that go wrong, or have more than expected *)

Section Listings.

Variable St : Type.
Variable run_cmd : list string -> St -> (Z * string * string) * St.

Lemma for_each_app {A B : Type} (l1 l2 : list A)
  (body : A -> B -> M St B) (acc : B) (w : world St) :
  for_each (l1 ++ l2) body acc w
  = match for_each l1 body acc w with
    | (inl e, w') => (inl e, w')
    | (inr acc', w') => for_each l2 body acc' w'
    end.
Proof.
  revert acc w; induction l1 as [|x l1 IH]; intros acc w; cbn [app for_each].
  - reflexivity.
  - unfold bind. destruct (body x acc w) as [[e|acc'] w']; [reflexivity|].
    apply IH.
Qed.

(** The loop of [get_all_connections] over lines of four fields or more. *)
Lemma connections_loop_long (lines : list string) :
  Forall (fun line => 4 <= List.length (Py.split ":" line)) lines ->
  forall (acc : list (Py.dict string)) (w : world St),
    for_each lines
      (fun line connections =>
         bind (getitem (Py.split ":" line) 0) (fun p0 =>
         bind (getitem (Py.split ":" line) 1) (fun p1 =>
         bind (getitem (Py.split ":" line) 2) (fun p2 =>
         bind (getitem (Py.split ":" line) 3) (fun p3 =>
         ret (connections
              ++ [[(ConnectionDetails.NAME, p0);
                   (ConnectionDetails.UUID, p1);
                   (ConnectionDetails.TYPE, p2);
                   (ConnectionDetails.DEVICE, p3)]])%list)))))
      acc w
    = (inr (acc ++ map connection_record lines)%list, w).
Proof.
  induction 1 as [|line lines L _ IH]; intros acc w; cbn [for_each map].
  - now rewrite app_nil_r.
  - unfold bind at 1. unfold connection_record at 1.
    destruct (Py.split ":" line) as [|a [|b [|c [|d r]]]];
      try (cbn in L; lia).
    cbn. rewrite IH, <- app_assoc. reflexivity.
Qed.

(** X9.  [get_all_connections] reads the first four fields of a line and
    drops the rest: when the listing call succeeds and every line has at
    least four fields, there is one record per line, in order, made of
    fields 0 to 3, whatever follows them.  An empty output gives the empty
    list.  (A colon inside a name therefore moves the later fields.) *)
Theorem get_all_connections_extra_fields
  (w : world St) (out err : string) (st' : St) :
  run_cmd ["nmcli"; "-t"; "connection"; "show"] (executor_state w)
  = ((0%Z, out, err), st') ->
  Forall (fun line => 4 <= List.length (Py.split ":" line))
         (Py.splitlines out) ->
  get_all_connections run_cmd w
  = (inr (map (fun line =>
                 [("name", nth 0 (Py.split ":" line) "");
                  ("uuid", nth 1 (Py.split ":" line) "");
                  ("type", nth 2 (Py.split ":" line) "");
                  ("device", nth 3 (Py.split ":" line) "")])
              (Py.splitlines out)),
     invoked w st' [["nmcli"; "-t"; "connection"; "show"]]).
Proof.
  intros R L. unfold get_all_connections. unfold bind at 1.
  rewrite (exec_command_run _ _ _ _ _ _ _ _ _ connections_command_argv R).
  cbn [Z.eqb]. now rewrite connections_loop_long.
Qed.

(** The loop of [get_all_devices] reaches a device after the usable replies
    of the devices before it; if its turn raises, so does the listing. *)
Lemma devices_reach
  (w : world St) (out err : string) (st1 : St)
  (pre post : list string) (name : string)
  (argvs : list (list string)) (e : exn) (w' : world St) :
  run_cmd ["nmcli"; "-g"; "GENERAL.DEVICE"; "device"; "show"]
          (executor_state w)
  = ((0%Z, out, err), st1) ->
  filter (fun name => negb (String.eqb name "")) (Py.splitlines out)
  = (pre ++ name :: post)%list ->
  Forall2 (fun name argv =>
             Shlex.split (device_details_command name) = inr argv)
          pre argvs ->
  Forall (fun reply =>
            reply_rc reply = 0%Z
            /\ 3 <= List.length (Py.splitlines (reply_out reply)))
         (fst (run_all run_cmd argvs st1)) ->
  (forall acc,
      bind (_exec_command run_cmd (device_details_command name))
        (fun out =>
         bind (getitem (Py.splitlines out) 0) (fun p0 =>
         bind (getitem (Py.splitlines out) 1) (fun p1 =>
         bind (getitem (Py.splitlines out) 2) (fun p2 =>
         ret (acc
              ++ [[(DeviceDetails.NAME, name);
                   (DeviceDetails.TYPE, p0);
                   (DeviceDetails.MAC, p1);
                   (DeviceDetails.MTU, p2)]])%list))))
        (invoked
           (invoked w st1
              [["nmcli"; "-g"; "GENERAL.DEVICE"; "device"; "show"]])
           (snd (run_all run_cmd argvs st1)) argvs)
      = (inl e, w')) ->
  get_all_devices run_cmd w = (inl e, w').
Proof.
  intros R N T U B. unfold get_all_devices. unfold bind at 1.
  rewrite (exec_command_run _ _ _ _ _ _ _ _ _ device_names_command_argv R).
  cbn [Z.eqb]. rewrite N, for_each_app.
  rewrite (devices_loop _ _ _ _ T) by exact U.
  cbn [for_each]. unfold bind at 1. now rewrite B.
Qed.

(** X10.  [get_all_devices] stops at the first device whose detail call
    cannot be used.  After the listing call and the devices before it, all
    answered with exit code 0 and three lines or more: if the call for the
    device exits with another code, the failure is logged and raised; if it
    exits with 0 and gives fewer than three lines, [IndexError] is raised.
    Either way the records built so far are lost and the later devices are
    not queried: the invocations are the listing, one per earlier device,
    and this one. *)
Theorem get_all_devices_stops
  (w : world St) (out err : string) (st1 : St)
  (pre post : list string) (name : string)
  (argvs : list (list string)) (argv : list string)
  (reply : Z * string * string) (st2 : St) :
  run_cmd ["nmcli"; "-g"; "GENERAL.DEVICE"; "device"; "show"]
          (executor_state w)
  = ((0%Z, out, err), st1) ->
  filter (fun name => negb (String.eqb name "")) (Py.splitlines out)
  = (pre ++ name :: post)%list ->
  Forall2 (fun name argv =>
             Shlex.split (device_details_command name) = inr argv)
          pre argvs ->
  Forall (fun reply =>
            reply_rc reply = 0%Z
            /\ 3 <= List.length (Py.splitlines (reply_out reply)))
         (fst (run_all run_cmd argvs st1)) ->
  Shlex.split (device_details_command name) = inr argv ->
  run_cmd argv (snd (run_all run_cmd argvs st1)) = (reply, st2) ->
  let called :=
    (["nmcli"; "-g"; "GENERAL.DEVICE"; "device"; "show"] :: argvs
     ++ [argv])%list in
  (reply_rc reply <> 0%Z ->
   get_all_devices run_cmd w
   = (inl (CommandExecutionFailure argv (reply_rc reply) (snd reply)),
      failed w st2 called
        (ERROR_MSG_FORMAT (device_details_command name)
           (reply_rc reply) (reply_out reply) (snd reply))))
  /\ (reply_rc reply = 0%Z ->
      List.length (Py.splitlines (reply_out reply)) < 3 ->
      get_all_devices run_cmd w = (inl IndexError, invoked w st2 called)).
Proof.
  intros R N T U Tn Rn called.
  destruct reply as [[rc out'] err']. cbn [reply_rc reply_out fst snd].
  split.
  - intros F.
    apply (devices_reach _ _ _ _ _ _ _ _ _ _ R N T U).
    intros acc. unfold bind at 1.
    rewrite (exec_command_run _ _ _ _
               (invoked
                  (invoked w st1
                     [["nmcli"; "-g"; "GENERAL.DEVICE"; "device"; "show"]])
                  (snd (run_all run_cmd argvs st1)) argvs)
               _ _ _ _ Tn Rn).
    apply Z.eqb_neq in F. rewrite F. unfold failed, invoked, called.
    cbn [fst snd invocations error_log executor_state].
    now rewrite <- !app_assoc.
  - intros -> S.
    apply (devices_reach _ _ _ _ _ _ _ _ _ _ R N T U).
    intros acc. unfold bind at 1.
    rewrite (exec_command_run _ _ _ _
               (invoked
                  (invoked w st1
                     [["nmcli"; "-g"; "GENERAL.DEVICE"; "device"; "show"]])
                  (snd (run_all run_cmd argvs st1)) argvs)
               _ _ _ _ Tn Rn). cbn [Z.eqb].
    unfold invoked, called.
    cbn [fst snd invocations error_log executor_state].
    rewrite <- !app_assoc.
    destruct (Py.splitlines out') as [|a [|b [|c r]]];
      try reflexivity.
    cbn in S. lia.
Qed.

(** X11.  A device name with one single quote in it stops the listing too:
    its detail command cannot be tokenised, so [ValueError] is raised
    before the executor is invoked for it; the invocations are the listing
    and one per earlier device. *)
Theorem get_all_devices_apostrophe
  (w : world St) (out err : string) (st1 : St)
  (pre post : list string) (a s : string)
  (argvs : list (list string)) :
  run_cmd ["nmcli"; "-g"; "GENERAL.DEVICE"; "device"; "show"]
          (executor_state w)
  = ((0%Z, out, err), st1) ->
  filter (fun name => negb (String.eqb name "")) (Py.splitlines out)
  = (pre ++ (a ++ "'" ++ s)%string :: post)%list ->
  Forall2 (fun name argv =>
             Shlex.split (device_details_command name) = inr argv)
          pre argvs ->
  Forall (fun reply =>
            reply_rc reply = 0%Z
            /\ 3 <= List.length (Py.splitlines (reply_out reply)))
         (fst (run_all run_cmd argvs st1)) ->
  Shlex.plain_chars a = true -> lacks "'" s = true ->
  get_all_devices run_cmd w
  = (inl (ValueError "No closing quotation"),
     invoked w (snd (run_all run_cmd argvs st1))
       (["nmcli"; "-g"; "GENERAL.DEVICE"; "device"; "show"] :: argvs)).
Proof.
  intros R N T U A L.
  apply (devices_reach _ _ _ _ _ _ _ _ _ _ R N T U).
  intros acc. unfold bind at 1. unfold _exec_command, bind, shlex_split.
  assert (E : Shlex.split (device_details_command (a ++ "'" ++ s))
              = inl "No closing quotation").
  { assert (P : Forall (fun x => Shlex.plain x = true)
                  ["-e"; "no"; "-g";
                   "GENERAL.TYPE,GENERAL.HWADDR,GENERAL.MTU";
                   "device"; "show"]).
    { repeat (apply Forall_cons; [reflexivity|]). apply Forall_nil. }
    rewrite <- (split_apostrophe_word _ a s P A L "nmcli" eq_refl).
    f_equal. unfold device_details_command. cbn.
    now rewrite append_nil_r. }
  rewrite E. unfold raise, invoked.
  cbn [invocations error_log executor_state].
  now rewrite <- app_assoc.
Qed.

(** X12.  When the listing call itself exits with a non-zero code, both
    listings end there: the failure is logged and raised with the argument
    vector of the listing call, nothing is parsed, and [get_all_devices]
    makes no detail call. *)
Theorem listing_call_failure
  (w : world St) (rc : Z) (out err : string) (st' : St) :
  rc <> 0%Z ->
  (run_cmd ["nmcli"; "-t"; "connection"; "show"] (executor_state w)
   = ((rc, out, err), st') ->
   get_all_connections run_cmd w
   = (inl (CommandExecutionFailure
             ["nmcli"; "-t"; "connection"; "show"] rc err),
      failed w st' [["nmcli"; "-t"; "connection"; "show"]]
        (ERROR_MSG_FORMAT "nmcli -t connection show" rc out err)))
  /\ (run_cmd ["nmcli"; "-g"; "GENERAL.DEVICE"; "device"; "show"]
              (executor_state w)
      = ((rc, out, err), st') ->
      get_all_devices run_cmd w
      = (inl (CommandExecutionFailure
                ["nmcli"; "-g"; "GENERAL.DEVICE"; "device"; "show"] rc err),
         failed w st' [["nmcli"; "-g"; "GENERAL.DEVICE"; "device"; "show"]]
           (ERROR_MSG_FORMAT "nmcli -g GENERAL.DEVICE device show"
              rc out err))).
Proof.
  intros F. apply Z.eqb_neq in F. split; intros R.
  - unfold get_all_connections. unfold bind at 1.
    rewrite (exec_command_run _ _ _ _ _ _ _ _ _ connections_command_argv R).
    rewrite F. reflexivity.
  - unfold get_all_devices. unfold bind at 1.
    rewrite (exec_command_run _ _ _ _ _ _ _ _ _ device_names_command_argv R).
    rewrite F. reflexivity.
Qed.

End Listings.

(** ** These properties at concrete inputs *)

Section MoreInstances.
Import Py Builder Words Commands.

Ltac all_plain :=
  vm_compute; repeat (apply Forall_cons; [reflexivity|]); apply Forall_nil.

Lemma add_command_argv_witness :
  Shlex.split
    (_nmcli_cmd_builder "connection" "add" "eth-test"
       (PyStr "ethernet") (PyStr "eth0") (PyBool true) PyNone
       (PyStr "manual") (PyStr "10.0.0.2/24") PyNone PyNone PyNone PyNone
       (Some [("mtu", PyInt 1500)]))
  = inr ["nmcli"; "connection"; "add"; "type"; "ethernet";
         "con-name"; "eth-test"; "ifname"; "eth0"; "autoconnect"; "yes";
         "mtu"; "1500"; "ipv4.method"; "manual";
         "ipv4.addresses"; "10.0.0.2/24"].
Proof.
  apply (add_command_argv "connection" "eth-test"
           (PyStr "ethernet") (PyStr "eth0") (PyBool true) PyNone
           (PyStr "manual") (PyStr "10.0.0.2/24") PyNone PyNone PyNone PyNone
           (Some [("mtu", PyInt 1500)])).
  all_plain.
Defined.

Lemma builder_without_common_options_witness :
  _nmcli_cmd_builder "connection" "modify" "eth-test"
    (PyStr "ethernet") (PyStr "eth0") (PyBool true) (PyBool false)
    PyNone PyNone PyNone PyNone PyNone PyNone
    (Some [("ipv4.dns", PyStr "8.8.8.8")])
  = "nmcli connection modify eth-test ipv4.dns 8.8.8.8".
Proof.
  apply (builder_without_common_options "connection" "modify" "eth-test"
           (PyStr "ethernet") (PyStr "eth0") (PyBool true) (PyBool false)
           PyNone PyNone PyNone PyNone PyNone PyNone
           (Some [("ipv4.dns", PyStr "8.8.8.8")])).
  discriminate.
Defined.

Lemma delete_connection_run_witness :
  delete_connection Demo.echo_executor "my conn" (World tt [] [])
  = (inr tt,
     invoked (World tt [] []) tt
       [["nmcli"; "connection"; "delete"; "my"; "conn"]]).
Proof.
  apply (delete_connection_run unit Demo.echo_executor "my" ["conn"]
           (World tt [] []) 0 "nmcli connection delete my conn" "" tt).
  - reflexivity.
  - all_plain.
  - reflexivity.
Defined.

Lemma delete_connection_apostrophe_witness :
  delete_connection Demo.echo_executor "Bob's" (World tt [] [])
  = (inl (ValueError "No closing quotation"), World tt [] []).
Proof.
  apply (delete_connection_apostrophe unit Demo.echo_executor "Bob" "s");
    reflexivity.
Defined.

Lemma set_connection_state_run_witness :
  set_connection_state Demo.echo_executor "eth-test" "up" (World tt [] [])
  = (inr tt,
     invoked (World tt [] []) tt [["nmcli"; "connection"; "up"; "eth-test"]]).
Proof.
  apply (set_connection_state_run unit Demo.echo_executor "eth-test" "up"
           (World tt [] []) 0 "nmcli connection up eth-test" "" tt);
    reflexivity.
Defined.

Lemma modify_run_witness :
  modify_connection Demo.echo_executor "eth-test"
    [("+ipv4.addresses", PyStr "192.168.23.2")] (World tt [] [])
  = (inr tt,
     invoked (World tt [] []) tt
       [["nmcli"; "connection"; "modify"; "eth-test";
         "+ipv4.addresses"; "192.168.23.2"]])
  /\ modify_device Demo.failing_executor "eth0" [] (World 0 [] [])
     = (inl (CommandExecutionFailure
               ["nmcli"; "device"; "modify"; "eth0"] 1 "boom"),
        failed (World 0 [] []) 1 [["nmcli"; "device"; "modify"; "eth0"]]
          (ERROR_MSG_FORMAT "nmcli device modify eth0" 1 "attempt 0" "boom")).
Proof.
  split.
  - apply (proj1 (modify_run unit Demo.echo_executor "eth-test"
                    [("+ipv4.addresses", PyStr "192.168.23.2")]
                    (World tt [] []) 0
                    "nmcli connection modify eth-test +ipv4.addresses 192.168.23.2"
                    "" tt eq_refl
                    ltac:(all_plain))).
    reflexivity.
  - apply (proj2 (modify_run nat Demo.failing_executor "eth0" []
                    (World 0 [] []) 1 "attempt 0" "boom" 1 eq_refl
                    ltac:(all_plain))).
    reflexivity.
Defined.

Lemma add_slave_run_witness :
  add_slave Demo.echo_executor "bond0-port1" "ethernet" "eth1" "bond0"
    (PyBool false) PyNone (World tt [] [])
  = (inr tt,
     invoked (World tt [] []) tt
       [["nmcli"; "connection"; "add"; "type"; "ethernet";
         "con-name"; "bond0-port1"; "ifname"; "eth1";
         "autoconnect"; "no"; "master"; "bond0"]]).
Proof.
  apply (add_slave_run unit Demo.echo_executor
           "bond0-port1" "ethernet" "eth1" "bond0" (PyBool false) PyNone
           (World tt [] []) 0
           ("nmcli connection add type ethernet con-name bond0-port1 "
            ++ "ifname eth1 autoconnect no master bond0") "" tt).
  - all_plain.
  - reflexivity.
Defined.

Lemma get_all_connections_extra_fields_witness :
  get_all_connections Hosts.colon_executor (World tt [] [])
  = (inr [[("name", "my"); ("uuid", "lan"); ("type", "1234-uuid");
           ("device", "ethernet")]],
     invoked (World tt [] []) tt [["nmcli"; "-t"; "connection"; "show"]]).
Proof.
  apply (get_all_connections_extra_fields unit Hosts.colon_executor
           (World tt [] []) "my:lan:1234-uuid:ethernet:eth0" "" tt eq_refl).
  vm_compute. repeat (apply Forall_cons; [lia|]). apply Forall_nil.
Defined.

Lemma listing_call_failure_witness :
  get_all_connections Demo.failing_executor (World 0 [] [])
  = (inl (CommandExecutionFailure
            ["nmcli"; "-t"; "connection"; "show"] 1 "boom"),
     failed (World 0 [] []) 1 [["nmcli"; "-t"; "connection"; "show"]]
       (ERROR_MSG_FORMAT "nmcli -t connection show" 1 "attempt 0" "boom"))
  /\ get_all_devices Demo.failing_executor (World 0 [] [])
     = (inl (CommandExecutionFailure
               ["nmcli"; "-g"; "GENERAL.DEVICE"; "device"; "show"] 1 "boom"),
        failed (World 0 [] []) 1
          [["nmcli"; "-g"; "GENERAL.DEVICE"; "device"; "show"]]
          (ERROR_MSG_FORMAT "nmcli -g GENERAL.DEVICE device show"
             1 "attempt 0" "boom")).
Proof.
  assert (F : 1%Z <> 0%Z) by discriminate.
  split.
  - exact (proj1 (listing_call_failure nat Demo.failing_executor
                    (World 0 [] []) 1 "attempt 0" "boom" 1 F) eq_refl).
  - exact (proj2 (listing_call_failure nat Demo.failing_executor
                    (World 0 [] []) 1 "attempt 0" "boom" 1 F) eq_refl).
Defined.

Local Notation listing_argv :=
  ["nmcli"; "-g"; "GENERAL.DEVICE"; "device"; "show"].

Local Notation details_argv name :=
  ["nmcli"; "-e"; "no"; "-g"; "GENERAL.TYPE,GENERAL.HWADDR,GENERAL.MTU";
   "device"; "show"; name].

Lemma eth0_tokenises :
  Forall2 (fun name argv =>
             Shlex.split (device_details_command name) = inr argv)
          ["eth0"] [details_argv "eth0"].
Proof.
  apply Forall2_cons; [|apply Forall2_nil].
  now apply device_details_command_argv.
Qed.

Lemma get_all_devices_stops_witness :
  get_all_devices Hosts.flaky_executor (World 0 [] [])
  = (inl (CommandExecutionFailure (details_argv "eth1") 10
            "Error: Device 'eth1' not found."),
     failed (World 0 [] []) 3
       [listing_argv; details_argv "eth0"; details_argv "eth1"]
       (ERROR_MSG_FORMAT (device_details_command "eth1") 10 ""
          "Error: Device 'eth1' not found."))
  /\ get_all_devices Hosts.short_executor (World 0 [] [])
     = (inl IndexError,
        invoked (World 0 [] []) 3
          [listing_argv; details_argv "eth0"; details_argv "lo"]).
Proof.
  assert (U : forall run,
             fst (run_all run [details_argv "eth0"] 1)
             = [(0%Z, Hosts.details "aa:bb:cc:dd:ee:01" "1500", "")] ->
             Forall (fun reply =>
                       reply_rc reply = 0%Z
                       /\ 3 <= List.length (splitlines (reply_out reply)))
                    (fst (run_all run [details_argv "eth0"] 1))).
  { intros run ->. apply Forall_cons; [|apply Forall_nil].
    split; [reflexivity | vm_compute; lia]. }
  split.
  - apply (proj1 (get_all_devices_stops nat Hosts.flaky_executor
                    (World 0 [] [])
                    ("eth0" ++ nl ++ "eth1" ++ nl ++ "eth2" ++ nl) "" 1
                    ["eth0"] ["eth2"] "eth1" [details_argv "eth0"]
                    (details_argv "eth1")
                    (10%Z, "", "Error: Device 'eth1' not found.") 3
                    eq_refl eq_refl eth0_tokenises
                    (U Hosts.flaky_executor eq_refl)
                    (device_details_command_argv "eth1" eq_refl) eq_refl)).
    discriminate.
  - apply (proj2 (get_all_devices_stops nat Hosts.short_executor
                    (World 0 [] [])
                    ("eth0" ++ nl ++ "lo" ++ nl) "" 1
                    ["eth0"] [] "lo" [details_argv "eth0"]
                    (details_argv "lo")
                    (0%Z, "loopback" ++ nl ++ "65536", "") 3
                    eq_refl eq_refl eth0_tokenises
                    (U Hosts.short_executor eq_refl)
                    (device_details_command_argv "lo" eq_refl) eq_refl)).
    + reflexivity.
    + vm_compute. lia.
Defined.

Lemma get_all_devices_apostrophe_witness :
  get_all_devices Hosts.quote_executor (World 0 [] [])
  = (inl (ValueError "No closing quotation"),
     invoked (World 0 [] []) 2 [listing_argv; details_argv "eth0"]).
Proof.
  apply (get_all_devices_apostrophe nat Hosts.quote_executor
           (World 0 [] []) ("eth0" ++ nl ++ "wlan'0" ++ nl) "" 1
           ["eth0"] [] "wlan" "0" [details_argv "eth0"]
           eq_refl eq_refl eth0_tokenises).
  - apply Forall_cons; [|apply Forall_nil].
    split; [reflexivity | vm_compute; lia].
  - reflexivity.
  - reflexivity.
Defined.

End MoreInstances.

(** ** Omission, for every operation *)

Section EveryOperation.
Import Py Builder Words Commands.

Variables (object_type operation name : string) (con_type ifname : pyval).
Variables (ipv4_method ipv4_addr ipv4_gw : pyval).
Variables (ipv6_method ipv6_addr ipv6_gw : pyval).
Variable type_options : option (dict pyval).

Local Notation command auto_connect save :=
  (_nmcli_cmd_builder object_type operation name
     con_type ifname auto_connect save
     ipv4_method ipv4_addr ipv4_gw ipv6_method ipv6_addr ipv6_gw
     type_options).

Local Notation from_caller :=
  (supplied_for object_type operation name con_type ifname
     ipv4_method ipv4_addr ipv4_gw ipv6_method ipv6_addr ipv6_gw
     type_options).

(** Where a word of a command comes from when the operation is not [add]:
    it is [nmcli], the key of a rendered IP option, or a word of a string
    of the caller. *)
Lemma other_command_word_origin (auto_connect save : pyval) (w : string) :
  operation <> "add" ->
  In w (tokens (command auto_connect save)) ->
  w = "nmcli"
  \/ (exists v, provided v = true
                /\ In (w, v) (ip_pairs ipv4_method ipv6_method ipv4_addr
                                       ipv4_gw ipv6_addr ipv6_gw))
  \/ (exists s, In s from_caller /\ In w (tokens s)).
Proof.
  intros N I. rewrite builder_other_spaced in I by exact N.
  rewrite tokens_spaced in I. unfold supplied_for.
  apply String.eqb_neq in N. rewrite N.
  apply in_app_or in I. destruct I as [I|I].
  { left. cbn in I. intuition congruence. }
  apply in_flat_map in I. destruct I as (s & I & T).
  rewrite !in_app_iff in I. destruct I as [I|[I|I]].
  - right. right. exists s. split; [|exact T].
    rewrite !in_app_iff. cbn [In] in *.
    destruct (String.eqb operation "delete" || String.eqb operation "modify");
      cbn [In] in *; tauto.
  - right. right. exists s. split; [|exact T]. rewrite !in_app_iff. tauto.
  - unfold ip_words in I. apply in_flat_map in I. destruct I as (kv & I & K).
    pose proof (ip_pairs_keys_values _ _ _ _ _ _ _ I) as (Kk & Kv & Kp).
    apply filter_In in I. destruct I as [_ P].
    unfold pair_words in K. cbn [In] in K. destruct K as [K|[K|[]]]; subst s.
    + right. left. exists (snd kv). split; [exact P|].
      cbn [In] in Kk.
      assert (W : w = fst kv).
      { repeat (destruct Kk as [Kk|Kk];
                [rewrite <- Kk in T |- *; cbn in T; intuition congruence|]).
        contradiction. }
      rewrite W. now destruct kv.
    + right. right. exists (str (snd kv)). split; [|exact T].
      rewrite !in_app_iff. right. right. right. now apply in_map.
Qed.

(** For [add], the strings of the caller are those of the ADD command. *)
Lemma from_caller_add (P : string -> Prop) :
  operation = "add" ->
  Forall P from_caller ->
  Forall P (supplied object_type name con_type ifname
              ipv4_method ipv4_addr ipv4_gw ipv6_method ipv6_addr ipv6_gw
              type_options).
Proof.
  intros -> F. rewrite Forall_forall in *. intros s I. apply F.
  unfold supplied in I. unfold supplied_for.
  change (String.eqb "add" "delete" || String.eqb "add" "modify") with false.
  change (String.eqb "add" "add") with true. cbv iota.
  rewrite !in_app_iff in *. cbn [In] in *. tauto.
Qed.

(** The key of an optional parameter left at [None] is not a word of the
    command, whatever the operation. *)
Lemma unset_key_any_operation (p : optional) (auto_connect save : pyval) :
  value_of p auto_connect save
    ipv4_method ipv4_addr ipv4_gw ipv6_method ipv6_addr ipv6_gw = PyNone ->
  Forall (fun s => ~ In (key_of p) (tokens s)) from_caller ->
  ~ In (key_of p) (tokens (command auto_connect save)).
Proof.
  intros V F. destruct (String.eqb_spec operation "add") as [E|N].
  - pose proof (from_caller_add _ E F) as F'. revert F'. rewrite E.
    now apply unset_key_is_no_word.
  - intros I. apply (other_command_word_origin _ _ _ N) in I.
    destruct I as [I|[(v & P & I)|(s & I & T)]].
    + destruct p; discriminate I.
    + unfold ip_pairs in I. cbn [In] in I.
      destruct p; cbn [value_of key_of] in V, I; subst;
        repeat (destruct I as [I|I];
                [first [discriminate I | injection I as <-; discriminate P]|]);
        contradiction.
    + rewrite Forall_forall in F. exact (F s I T).
Qed.

(** No word of a command is empty, whatever the operation. *)
Lemma no_empty_word_any_operation (auto_connect save : pyval) :
  Forall (fun s => ~ In "" (tokens s)) from_caller ->
  ~ In "" (tokens (command auto_connect save)).
Proof.
  intros F. destruct (String.eqb_spec operation "add") as [E|N].
  - pose proof (from_caller_add _ E F) as F'. revert F'. rewrite E.
    now apply no_empty_word.
  - intros I. apply (other_command_word_origin _ _ _ N) in I.
    destruct I as [I|[(v & P & I)|(s & I & T)]].
    + discriminate I.
    + cbn in I. intuition discriminate.
    + rewrite Forall_forall in F. exact (F s I T).
Qed.

End EveryOperation.

Section OmissionEverywhere.
Import Py Builder Words Commands.

(** C6 (absence-omission).  In every command the builder makes, whatever
    the operation, an optional parameter left at [None] (autoconnect, save,
    each of the six IP options) contributes no word: its key is not a word
    of the command, and no word of the command is empty, so there is neither
    an empty value nor an extra separator.  The same holds for the
    type-specific options the operations take: with [mac], [mtu], [mode] or
    [miimon] left at [None], the command has no such word.  (A word can
    still come in through a string the caller supplies; the hypotheses
    exclude that.) *)
Theorem absent_parameters_are_omitted :
  (forall (object_type operation name : string)
          (con_type ifname auto_connect save : pyval)
          (ipv4_method ipv4_addr ipv4_gw : pyval)
          (ipv6_method ipv6_addr ipv6_gw : pyval)
          (type_options : option (dict pyval)) (p : optional),
      value_of p auto_connect save
        ipv4_method ipv4_addr ipv4_gw ipv6_method ipv6_addr ipv6_gw
      = PyNone ->
      Forall (fun s => ~ In (key_of p) (tokens s))
        (supplied_for object_type operation name con_type ifname
           ipv4_method ipv4_addr ipv4_gw ipv6_method ipv6_addr ipv6_gw
           type_options) ->
      ~ In (key_of p)
          (tokens (_nmcli_cmd_builder object_type operation name
                     con_type ifname auto_connect save
                     ipv4_method ipv4_addr ipv4_gw
                     ipv6_method ipv6_addr ipv6_gw type_options)))
  /\ (forall (object_type operation name : string)
             (con_type ifname auto_connect save : pyval)
             (ipv4_method ipv4_addr ipv4_gw : pyval)
             (ipv6_method ipv6_addr ipv6_gw : pyval)
             (type_options : option (dict pyval)),
         Forall (fun s => ~ In "" (tokens s))
           (supplied_for object_type operation name con_type ifname
              ipv4_method ipv4_addr ipv4_gw ipv6_method ipv6_addr ipv6_gw
              type_options) ->
         ~ In ""
             (tokens (_nmcli_cmd_builder object_type operation name
                        con_type ifname auto_connect save
                        ipv4_method ipv4_addr ipv4_gw
                        ipv6_method ipv6_addr ipv6_gw type_options)))
  /\ (forall (name ifname : string) (auto_connect save mac mtu : pyval)
             (ipv4_method ipv4_addr ipv4_gw : pyval)
             (ipv6_method ipv6_addr ipv6_gw : pyval),
         let command mac mtu :=
           add_ethernet_connection_command name ifname auto_connect save
             mac mtu ipv4_method ipv4_addr ipv4_gw
             ipv6_method ipv6_addr ipv6_gw in
         let strings v :=
           caller_strings [name; ifname]
             [v; ipv4_method; ipv6_method; ipv4_addr; ipv4_gw;
              ipv6_addr; ipv6_gw] in
         (Forall (fun s => ~ In "mac" (tokens s)) (strings mtu) ->
          ~ In "mac" (tokens (command PyNone mtu)))
         /\ (Forall (fun s => ~ In "mtu" (tokens s)) (strings mac) ->
             ~ In "mtu" (tokens (command mac PyNone))))
  /\ (forall (con_name ifname : string)
             (mode miimon auto_connect save : pyval)
             (ipv4_method ipv4_addr ipv4_gw : pyval)
             (ipv6_method ipv6_addr ipv6_gw : pyval),
         let command mode miimon :=
           add_bond_command con_name ifname mode miimon auto_connect save
             ipv4_method ipv4_addr ipv4_gw ipv6_method ipv6_addr ipv6_gw in
         let strings v :=
           caller_strings [con_name; ifname]
             [v; ipv4_method; ipv6_method; ipv4_addr; ipv4_gw;
              ipv6_addr; ipv6_gw] in
         (Forall (fun s => ~ In "mode" (tokens s)) (strings miimon) ->
          ~ In "mode" (tokens (command PyNone miimon)))
         /\ (Forall (fun s => ~ In "miimon" (tokens s)) (strings mode) ->
             ~ In "miimon" (tokens (command mode PyNone))))
  /\ (forall (con_name dev : string) (vlan_id auto_connect save : pyval)
             (ipv4_method ipv4_addr ipv4_gw : pyval)
             (ipv6_method ipv6_addr ipv6_gw : pyval),
         Forall (fun s => ~ In "mtu" (tokens s))
           (caller_strings [con_name; dev; str vlan_id]
              [ipv4_method; ipv6_method; ipv4_addr; ipv4_gw;
               ipv6_addr; ipv6_gw]) ->
         ~ In "mtu"
             (tokens (add_vlan_command con_name dev vlan_id PyNone
                        auto_connect save
                        ipv4_method ipv4_addr ipv4_gw
                        ipv6_method ipv6_addr ipv6_gw))).
Proof.
  split; [|split; [|split; [|split]]].
  - intros until p. apply unset_key_any_operation.
  - intros. now apply no_empty_word_any_operation.
  - intros. split.
    + apply ethernet_without_mac.
    + apply ethernet_without_mtu.
  - intros. split.
    + apply bond_without_mode.
    + apply bond_without_miimon.
  - intros until ipv6_gw. apply vlan_without_mtu.
Qed.

Ltac no_word :=
  apply Forall_forall; intros ?s ?Hs; cbn in Hs;
  repeat (destruct Hs as [<-|Hs]; [cbv; intuition discriminate|]);
  contradiction.

Lemma absent_parameters_are_omitted_witness :
  ~ In "ipv4.gateway"
      (tokens (_nmcli_cmd_builder "connection" "add" "eth-test"
                 (PyStr "ethernet") (PyStr "eth0") PyNone PyNone
                 (PyStr "manual") (PyStr "10.0.0.2/24") PyNone
                 PyNone PyNone PyNone (Some [("mtu", PyInt 1500)])))
  /\ ~ In "autoconnect"
         (tokens (_nmcli_cmd_builder "connection" "delete" "eth-test"
                    PyNone PyNone PyNone PyNone
                    PyNone PyNone PyNone PyNone PyNone PyNone None))
  /\ ~ In "ipv6.addresses"
         (tokens (_nmcli_cmd_builder "device" "modify" "eth0"
                    PyNone PyNone PyNone PyNone
                    (PyStr "auto") PyNone PyNone PyNone PyNone PyNone
                    (Some [("ipv4.dns", PyStr "8.8.8.8")])))
  /\ ~ In ""
         (tokens (_nmcli_cmd_builder "connection" "add" "eth-test"
                    (PyStr "ethernet") (PyStr "eth0") PyNone PyNone
                    (PyStr "manual") (PyStr "10.0.0.2/24") PyNone
                    PyNone PyNone PyNone (Some [("mtu", PyInt 1500)])))
  /\ ~ In ""
         (tokens (_nmcli_cmd_builder "connection" "modify" "eth-test"
                    PyNone PyNone PyNone PyNone
                    PyNone PyNone PyNone PyNone PyNone PyNone
                    (Some [("ipv4.dns", PyStr "8.8.8.8")])))
  /\ ~ In "mac"
         (tokens (add_ethernet_connection_command "eth-test" "eth0"
                    PyNone PyNone PyNone (PyInt 1500)
                    PyNone PyNone PyNone PyNone PyNone PyNone))
  /\ ~ In "mtu"
         (tokens (add_ethernet_connection_command "eth-test" "eth0"
                    PyNone PyNone (PyStr "aa:bb:cc:dd:ee:ff") PyNone
                    PyNone PyNone PyNone PyNone PyNone PyNone))
  /\ ~ In "mode"
         (tokens (add_bond_command "bond0" "bond0" PyNone (PyInt 100)
                    PyNone PyNone
                    PyNone PyNone PyNone PyNone PyNone PyNone))
  /\ ~ In "miimon"
         (tokens (add_bond_command "bond0" "bond0" (PyStr "802.3ad") PyNone
                    PyNone PyNone
                    PyNone PyNone PyNone PyNone PyNone PyNone))
  /\ ~ In "mtu"
         (tokens (add_vlan_command "vlan10" "eth0" (PyInt 10) PyNone
                    PyNone PyNone
                    PyNone PyNone PyNone PyNone PyNone PyNone)).
Proof.
  destruct absent_parameters_are_omitted as (K & E & Eth & Bond & Vlan).
  split.
  { apply (K "connection" "add" "eth-test" (PyStr "ethernet") (PyStr "eth0")
             PyNone PyNone (PyStr "manual") (PyStr "10.0.0.2/24") PyNone
             PyNone PyNone PyNone (Some [("mtu", PyInt 1500)]) Ipv4Gw);
      [reflexivity | no_word]. }
  split.
  { apply (K "connection" "delete" "eth-test" PyNone PyNone PyNone PyNone
             PyNone PyNone PyNone PyNone PyNone PyNone None AutoConnect);
      [reflexivity | no_word]. }
  split.
  { apply (K "device" "modify" "eth0" PyNone PyNone PyNone PyNone
             (PyStr "auto") PyNone PyNone PyNone PyNone PyNone
             (Some [("ipv4.dns", PyStr "8.8.8.8")]) Ipv6Addr);
      [reflexivity | no_word]. }
  split.
  { apply E. no_word. }
  split.
  { apply E. no_word. }
  split.
  { apply (proj1 (Eth "eth-test" "eth0" PyNone PyNone PyNone (PyInt 1500)
                      PyNone PyNone PyNone PyNone PyNone PyNone)).
    no_word. }
  split.
  { apply (proj2 (Eth "eth-test" "eth0" PyNone PyNone
                      (PyStr "aa:bb:cc:dd:ee:ff") PyNone
                      PyNone PyNone PyNone PyNone PyNone PyNone)).
    no_word. }
  split.
  { apply (proj1 (Bond "bond0" "bond0" PyNone (PyInt 100) PyNone PyNone
                       PyNone PyNone PyNone PyNone PyNone PyNone)).
    no_word. }
  split.
  { apply (proj2 (Bond "bond0" "bond0" (PyStr "802.3ad") PyNone PyNone PyNone
                       PyNone PyNone PyNone PyNone PyNone PyNone)).
    no_word. }
  apply Vlan. no_word.
Defined.

(** C5: an IP address given as the empty string, or a value given as [0],
    is not [None], yet its pair is left out of the command. *)
Lemma empty_ip_value_is_dropped :
  PyStr "" <> PyNone
  /\ PyInt 0 <> PyNone
  /\ _ip_options_builder (PyStr "") PyNone PyNone PyNone PyNone PyNone = ""
  /\ _nmcli_cmd_builder "connection" "add" "eth-test"
       (PyStr "ethernet") (PyStr "eth0") PyNone PyNone
       (PyStr "manual") (PyStr "") (PyInt 0) PyNone PyNone PyNone None
     = "nmcli connection add type ethernet con-name eth-test ifname eth0 "
       ++ "ipv4.method manual"
  /\ ~ In "ipv4.addresses"
         (tokens (_nmcli_cmd_builder "connection" "add" "eth-test"
                    (PyStr "ethernet") (PyStr "eth0") PyNone PyNone
                    (PyStr "manual") (PyStr "") (PyInt 0)
                    PyNone PyNone PyNone None))
  /\ ~ In "ipv4.gateway"
         (tokens (_nmcli_cmd_builder "connection" "add" "eth-test"
                    (PyStr "ethernet") (PyStr "eth0") PyNone PyNone
                    (PyStr "manual") (PyStr "") (PyInt 0)
                    PyNone PyNone PyNone None)).
Proof.
  split; [discriminate|]. split; [discriminate|].
  split; [reflexivity|]. split; [vm_compute; reflexivity|].
  split; vm_compute; intuition discriminate.
Qed.

End OmissionEverywhere.
